(** * Order analytics dashboard (main.py): queries, rounding, export names

    A shallow embedding of [main.py].  The Python functions build an SQL
    statement from two optional dates, send it to a MySQL server through
    [pd.read_sql], round the monetary columns of the data frame they get
    back and close the connection.

    Modelling decisions, all stated once here:
    - the server is external: its answer to a statement is given by a
      denotation ([exec]) of the three fixed statement shapes over tables
      held as lists of records (FROM/JOIN, WHERE, GROUP BY, aggregates,
      ORDER BY in that order);
    - monetary values are exact decimals, kept as rationals ([Q]); the
      binary representation error of the client's float64 columns is not
      modelled, and a comparison of rounded columns keeps the tolerance
      of 1e-6 for it;
    - the amount columns of [orders] are NOT NULL;
    - string comparison in [order_status = 'delivered'] is exact;
    - a date argument is [None], the empty string or a [datetime.date];
    - the spreadsheet writer is a library function, kept as a parameter of
      the page; the sheet it writes is modelled in [Xlsx];
    - [App.main] is the page of a run that returns; [Script.main_script]
      is the same run statement by statement, with what is on the screen
      when a call raises. *)

From Stdlib Require Import ZArith QArith Qround Qabs List String Ascii Bool Arith Lia Lqa.
From Stdlib Require Import Sorting.Sorted.
Import ListNotations.

Set Implicit Arguments.

(** ** Dates ([datetime.date]) and the values passed as date arguments *)

Module Py.
Local Open Scope nat_scope.

Record date := mkdate { year : nat; month : nat; day : nat }.

(** Chronological order; on well-formed dates this is the lexicographic
    order of (year, month, day). *)
Definition date_eqb (a b : date) : bool :=
  (year a =? year b)%nat && (month a =? month b)%nat && (day a =? day b)%nat.

Definition date_leb (a b : date) : bool :=
  (year a <? year b)%nat
  || ((year a =? year b)%nat
      && ((month a <? month b)%nat
          || ((month a =? month b)%nat && (day a <=? day b)%nat))).

Definition date_ltb (a b : date) : bool := negb (date_leb b a).

Definition digit (n : nat) : ascii := ascii_of_nat (48 + n mod 10).

Definition pad2 (n : nat) : string :=
  String (digit (n / 10)) (String (digit n) EmptyString).

Definition pad4 (n : nat) : string :=
  String (digit (n / 1000)) (String (digit (n / 100))
    (String (digit (n / 10)) (String (digit n) EmptyString))).

(** [date.__str__] is [isoformat]: YYYY-MM-DD, zero padded. *)
Definition isoformat (d : date) : string :=
  (pad4 (year d) ++ "-" ++ pad2 (month d) ++ "-" ++ pad2 (day d))%string.

(** Well-formed dates, as [datetime.date] enforces them (years 1 to 9999). *)
Definition is_leap (y : nat) : bool :=
  ((y mod 4 =? 0) && negb (y mod 100 =? 0) || (y mod 400 =? 0))%nat.

Definition days_in_month (y m : nat) : nat :=
  match m with
  | 2 => if is_leap y then 29 else 28
  | 4 | 6 | 9 | 11 => 30
  | _ => 31
  end.

Definition valid (d : date) : bool :=
  ((1 <=? year d) && (year d <? 10 * 1000) && (1 <=? month d) && (month d <=? 12)
   && (1 <=? day d) && (day d <=? days_in_month (year d) (month d)))%nat.

(** The values a date argument takes: [None] (the default), the empty
    string, or a [datetime.date] (what [main] passes). *)
Inductive value :=
| VNone
| VEmpty
| VDate (d : date).

(** Python truthiness: [None] and [''] are falsy, a date is truthy. *)
Definition truthy (v : value) : bool :=
  match v with
  | VNone => false
  | VEmpty => false
  | VDate _ => true
  end.

(** [f"{v}"], that is [format(v, '')] = [str(v)]. *)
Definition str (v : value) : string :=
  match v with
  | VNone => "None"
  | VEmpty => EmptyString
  | VDate d => isoformat d
  end.

End Py.

(** ** The database: tables read by the queries *)

Module Db.

(** [created_at] is a timestamp; [DATE(created_at)] keeps its calendar day. *)
Record timestamp := mktimestamp {
  ts_date : Py.date;
  ts_hour : nat;
  ts_minute : nat;
  ts_second : nat
}.

Definition DATE (t : timestamp) : Py.date := ts_date t.

Record order := mkorder {
  id : Z;
  store_id : option Z;
  delivery_man_id : option Z;
  order_amount : Q;
  delivery_charge : Q;
  additional_charge : Q;
  order_status : string;
  created_at : timestamp
}.

Record store := mkstore { s_id : Z; s_name : string }.

Record delivery_man := mkdelivery_man { dm_id : Z; l_name : string }.

Record database := mkdatabase {
  orders : list order;
  stores : list store;
  delivery_men : list delivery_man
}.

End Db.

(** ** The SQL statements

    The three functions send one fixed SELECT each; only the WHERE clause
    varies.  A statement is kept as its shape ([report]) and the list of
    conjuncts of its WHERE clause; [sql_text] gives the text sent. *)

Module Sql.

Inductive report := Overall | PerRestaurant | PerCourier.

(** The conjuncts of WHERE; every argument is the text of a quoted literal. *)
Inductive condition :=
| StatusIs (s : string)            (* order_status = 's' *)
| DateIs (d : string)              (* DATE(created_at) = 'd' *)
| DateBetween (lo hi : string).    (* DATE(created_at) BETWEEN 'lo' AND 'hi' *)

Record statement := mkstatement {
  st_report : report;
  st_where : list condition
}.

Local Open Scope string_scope.

(** Text up to and including the keyword WHERE. *)
Definition select_text (r : report) : string :=
  match r with
  | PerRestaurant => "
    SELECT 
        s.name as restaurant_name,
        COUNT(o.id) as total_orders,
        SUM(o.order_amount) as total_order_amount,
        SUM(o.delivery_charge) as total_delivery_fee,
        SUM(o.additional_charge) as total_additional_charge,
        SUM(o.order_amount - o.delivery_charge - o.additional_charge) as total_revenue
    FROM orders o
    JOIN stores s ON o.store_id = s.id
    WHERE "
  | PerCourier => "
    SELECT 
        dm.l_name as delivery_man_name,
        COUNT(o.id) as total_deliveries,
        SUM(o.order_amount) as total_order_amount,
        SUM(o.delivery_charge) as total_delivery_fee
    FROM orders o
    JOIN delivery_men dm ON o.delivery_man_id = dm.id
    WHERE "
  | Overall => "
    SELECT 
        COUNT(id) as total_orders,
        COALESCE(SUM(order_amount), 0) as total_order_amount,
        COALESCE(SUM(order_amount - delivery_charge - additional_charge), 0) as total_restaurant_revenue,
        COALESCE(SUM(delivery_charge), 0) as total_delivery_charge,
        COALESCE(SUM(additional_charge), 0) as total_additional_charge
    FROM orders 
    WHERE "
  end.

(** The grouped statements qualify the columns of [orders] with [o.]. *)
Definition qualifier (r : report) : string :=
  match r with
  | Overall => EmptyString
  | PerRestaurant | PerCourier => "o."
  end.

Definition tail_text (r : report) : string :=
  match r with
  | Overall => EmptyString
  | PerRestaurant => " GROUP BY s.id, s.name ORDER BY total_revenue DESC"
  | PerCourier => " GROUP BY dm.id, dm.l_name ORDER BY total_order_amount DESC"
  end.

Definition condition_text (r : report) (c : condition) : string :=
  match c with
  | StatusIs s => qualifier r ++ "order_status = '" ++ s ++ "'"
  | DateIs d => "DATE(" ++ qualifier r ++ "created_at) = '" ++ d ++ "'"
  | DateBetween lo hi =>
      "DATE(" ++ qualifier r ++ "created_at) BETWEEN '" ++ lo
        ++ "' AND '" ++ hi ++ "'"
  end.

(** The first conjunct closes the fixed block of the statement (a line
    break and four blanks follow it); every further one is appended with
    [" AND "]. *)
Definition where_text (r : report) (cs : list condition) : string :=
  match cs with
  | [] => EmptyString
  | c :: cs' =>
      condition_text r c ++ "
    " ++ String.concat EmptyString (map (fun c' => " AND " ++ condition_text r c') cs')
  end.

Definition sql_text (st : statement) : string :=
  select_text (st_report st) ++ where_text (st_report st) (st_where st)
    ++ tail_text (st_report st).

End Sql.

(** ** Data frames and the pandas operations the code uses *)

Module Pandas.
Local Open Scope Q_scope.

(** A cell of a data frame: an int64, a float64 (kept exact), NaN (what an
    SQL NULL becomes in a numeric column) or a string. *)
Inductive cell :=
| CInt (z : Z)
| CFloat (q : Q)
| CNaN
| CStr (s : string).

Record DataFrame := mkframe {
  columns : list string;
  rows : list (list cell)
}.

(** [df.empty]: some axis has length 0. *)
Definition empty (df : DataFrame) : bool :=
  (List.length (columns df) =? 0)%nat || (List.length (rows df) =? 0)%nat.

(** [col in df.columns] *)
Definition has_column (col : string) (df : DataFrame) : bool :=
  existsb (String.eqb col) (columns df).

Fixpoint position (col : string) (cols : list string) : option nat :=
  match cols with
  | [] => None
  | c :: cs =>
      if String.eqb col c then Some O
      else match position col cs with
           | Some i => Some (S i)
           | None => None
           end
  end.

(** [df[col]]: the cells of the column, top to bottom. *)
Definition column (col : string) (df : DataFrame) : option (list cell) :=
  match position col (columns df) with
  | Some i => Some (map (fun r => nth i r CNaN) (rows df))
  | None => None
  end.

(** Round half to even, as [numpy.rint]. *)
Definition rint (q : Q) : Z :=
  let f := Qfloor q in
  match Qcompare (q - inject_Z f)%Q (1 # 2)%Q with
  | Lt => f
  | Gt => (f + 1)%Z
  | Eq => if Z.even f then f else (f + 1)%Z
  end.

(** [numpy.round(x, 2)] = [rint(x * 100) / 100], taken on the decimal the
    float64 stands for.  The float64 product [x * 100] of a value that
    ends on half a cent can fall on either side of the tie, and cents are
    no longer exact above [2^53 / 100]; neither is modelled, so no
    statement below says which way a tie goes, and the distance between
    rounded columns is stated up to the tolerance of 1e-6. *)
Definition round2 (q : Q) : Q := rint (q * 100) # 100.

(** [Series.round(2)] on one cell: integers and NaN are kept.  The
    columns rounded by the code are numeric; a string cell is kept too. *)
Definition round_cell (c : cell) : cell :=
  match c with
  | CFloat q => CFloat (round2 q)
  | other => other
  end.

Fixpoint apply_at {A} (f : A -> A) (i : nat) (l : list A) : list A :=
  match l, i with
  | [], _ => []
  | x :: l', O => f x :: l'
  | x :: l', S i' => x :: apply_at f i' l'
  end.

(** [df[col] = df[col].round(2)] *)
Definition round_column (col : string) (df : DataFrame) : DataFrame :=
  match position col (columns df) with
  | Some i => mkframe (columns df) (map (apply_at round_cell i) (rows df))
  | None => df
  end.

(** The block shared by the three functions:
    [if not df.empty: for col in monetary_columns:
         if col in df.columns: df[col] = df[col].round(2)] *)
Definition round_monetary (monetary_columns : list string) (df : DataFrame)
  : DataFrame :=
  if negb (empty df) then
    fold_left
      (fun d col => if has_column col d then round_column col d else d)
      monetary_columns df
  else df.

End Pandas.

(** ** What the server answers: a denotation of the three statements *)

Module Engine.
Import Db Sql Pandas.
Local Open Scope Q_scope.

Definition digit_value (c : ascii) : option nat :=
  let n := nat_of_ascii c in
  if ((48 <=? n) && (n <=? 57))%nat then Some (n - 48)%nat else None.

Definition number (ds : list ascii) : option nat :=
  fold_left
    (fun acc c =>
       match acc, digit_value c with
       | Some n, Some v => Some (10 * n + v)%nat
       | _, _ => None
       end)
    ds (Some O).

(** A quoted literal compared with a DATE is read as a date: YYYY-MM-DD
    naming a day of the calendar. *)
Definition date_literal (s : string) : option Py.date :=
  match list_ascii_of_string s with
  | [y1; y2; y3; y4; h1; m1; m2; h2; d1; d2] =>
      if (Ascii.eqb h1 "-" && Ascii.eqb h2 "-")%char then
        match number [y1; y2; y3; y4], number [m1; m2], number [d1; d2] with
        | Some y, Some m, Some d =>
            if Py.valid (Py.mkdate y m d) then Some (Py.mkdate y m d) else None
        | _, _, _ => None
        end
      else None
  | _ => None
  end.

(** A comparison with a literal that names no date is not satisfied
    (the functions below never produce one from a well-formed date). *)
Definition holds (c : condition) (o : order) : bool :=
  match c with
  | StatusIs s => String.eqb (order_status o) s
  | DateIs d =>
      match date_literal d with
      | Some d' => Py.date_eqb (DATE (created_at o)) d'
      | None => false
      end
  | DateBetween lo hi =>
      match date_literal lo, date_literal hi with
      | Some lo', Some hi' =>
          Py.date_leb lo' (DATE (created_at o))
          && Py.date_leb (DATE (created_at o)) hi'
      | _, _ => false
      end
  end.

(** WHERE c1 AND c2 AND ... *)
Definition where_holds (cs : list condition) (o : order) : bool :=
  forallb (fun c => holds c o) cs.

(** The expression summed for the net revenue. *)
Definition net_revenue (o : order) : Q :=
  order_amount o - delivery_charge o - additional_charge o.

(** [COUNT(id)]: [id] is the primary key, never NULL. *)
Definition COUNT {A} (rs : list A) : Z := Z.of_nat (List.length rs).

Definition total {A} (f : A -> Q) (rs : list A) : Q :=
  fold_right (fun r acc => f r + acc) 0 rs.

(** [SUM(e)] is NULL over no rows. *)
Definition SUM {A} (f : A -> Q) (rs : list A) : option Q :=
  match rs with
  | [] => None
  | _ :: _ => Some (total f rs)
  end.

Definition COALESCE (v : option Q) (d : Q) : Q :=
  match v with
  | Some q => q
  | None => d
  end.

(** A numeric SQL value as [read_sql] stores it. *)
Definition numeric (v : option Q) : cell :=
  match v with
  | Some q => CFloat q
  | None => CNaN
  end.

(** [orders o JOIN t ON o.fk = t.id] *)
Definition JOIN {T} (fk : order -> option Z) (pk : T -> Z)
    (os : list order) (ts : list T) : list (order * T) :=
  flat_map
    (fun o =>
       map (fun t => (o, t))
         (filter (fun t => match fk o with
                           | Some i => Z.eqb i (pk t)
                           | None => false
                           end) ts))
    os.

Definition key := (Z * string)%type.

Definition key_eqb (a b : key) : bool :=
  Z.eqb (fst a) (fst b) && String.eqb (snd a) (snd b).

Fixpoint add_to_group {A} (k : key) (x : A) (gs : list (key * list A))
  : list (key * list A) :=
  match gs with
  | [] => [(k, [x])]
  | (k', xs) :: gs' =>
      if key_eqb k' k then (k', xs ++ [x]) :: gs'
      else (k', xs) :: add_to_group k x gs'
  end.

(** GROUP BY: the groups in order of first appearance. *)
Definition GROUP_BY {A} (kf : A -> key) (l : list A) : list (key * list A) :=
  fold_left (fun gs x => add_to_group (kf x) x gs) l [].

Fixpoint insert_desc {A} (f : A -> Q) (x : A) (l : list A) : list A :=
  match l with
  | [] => [x]
  | y :: l' => if Qle_bool (f y) (f x) then x :: y :: l'
               else y :: insert_desc f x l'
  end.

(** ORDER BY f DESC (the order of ties is not fixed by SQL; this sort
    keeps them in input order). *)
Definition ORDER_BY_DESC {A} (f : A -> Q) (l : list A) : list A :=
  fold_right (insert_desc f) [] l.

Definition overall_columns : list string :=
  ["total_orders"; "total_order_amount"; "total_restaurant_revenue";
   "total_delivery_charge"; "total_additional_charge"]%string.

Definition restaurant_columns : list string :=
  ["restaurant_name"; "total_orders"; "total_order_amount";
   "total_delivery_fee"; "total_additional_charge"; "total_revenue"]%string.

Definition courier_columns : list string :=
  ["delivery_man_name"; "total_deliveries"; "total_order_amount";
   "total_delivery_fee"]%string.

(** No GROUP BY: one row, also over no orders. *)
Definition overall_row (os : list order) : list cell :=
  [CInt (COUNT os);
   CFloat (COALESCE (SUM order_amount os) 0);
   CFloat (COALESCE (SUM net_revenue os) 0);
   CFloat (COALESCE (SUM delivery_charge os) 0);
   CFloat (COALESCE (SUM additional_charge os) 0)].

Definition restaurant_row (g : key * list order) : list cell :=
  [CStr (snd (fst g));
   CInt (COUNT (snd g));
   numeric (SUM order_amount (snd g));
   numeric (SUM delivery_charge (snd g));
   numeric (SUM additional_charge (snd g));
   numeric (SUM net_revenue (snd g))].

Definition courier_row (g : key * list order) : list cell :=
  [CStr (snd (fst g));
   CInt (COUNT (snd g));
   numeric (SUM order_amount (snd g));
   numeric (SUM delivery_charge (snd g))].

(** Joined rows that pass WHERE, grouped by the key of the joined table;
    each group keeps its orders. *)
Definition groups {T} (fk : order -> option Z) (pk : T -> Z) (name : T -> string)
    (cs : list condition) (os : list order) (ts : list T)
  : list (key * list order) :=
  map (fun g => (fst g, map fst (snd g)))
    (GROUP_BY (fun ot => (pk (snd ot), name (snd ot)))
       (filter (fun ot => where_holds cs (fst ot)) (JOIN fk pk os ts))).

Definition exec (db : database) (st : statement) : DataFrame :=
  match st_report st with
  | Overall =>
      mkframe overall_columns
        [overall_row (filter (where_holds (st_where st)) (orders db))]
  | PerRestaurant =>
      mkframe restaurant_columns
        (map restaurant_row
           (ORDER_BY_DESC (fun g => total net_revenue (snd g))
              (groups store_id s_id s_name (st_where st) (orders db) (stores db))))
  | PerCourier =>
      mkframe courier_columns
        (map courier_row
           (ORDER_BY_DESC (fun g => total order_amount (snd g))
              (groups delivery_man_id dm_id l_name (st_where st)
                 (orders db) (delivery_men db))))
  end.

(** The table of orders cut down to the rows that satisfy [p]. *)
Definition restrict (p : order -> bool) (d : database) : database :=
  mkdatabase (filter p (orders d)) (stores d) (delivery_men d).

(** [b] may follow [a] in a result ordered by [f] descending. *)
Definition desc {A} (f : A -> Q) (a b : A) : Prop := f b <= f a.

End Engine.

(** ** Connections and the calls that can raise *)

Module App.
Import Db Sql Pandas Engine.
Local Open Scope string_scope.

Inductive exn :=
| OperationalError      (* the server cannot be reached or goes away *)
| DatabaseError         (* the statement fails on the server *)
| InterfaceError        (* use of a closed connection *)
| KeyError              (* a column the frame does not have *)
| IndexError.           (* [iloc] past the last row *)

Definition connection := nat.

(** The server (its tables and whether it fails), and the connections
    this process holds open. *)
Record world := mkworld {
  db : database;
  connect_failure : option exn;
  query_failure : option exn;
  next_connection : connection;
  open_connections : list connection
}.

Inductive outcome (A : Type) :=
| Returned (a : A)
| Raised (e : exn).

Arguments Raised {A} e.

Definition IO (A : Type) : Type := world -> outcome A * world.

Definition ret {A} (a : A) : IO A := fun w => (Returned a, w).

Definition raise {A} (e : exn) : IO A := fun w => (Raised e, w).

(** Sequencing: an exception skips the rest of the function body. *)
Definition bind {A B} (m : IO A) (k : A -> IO B) : IO B :=
  fun w =>
    match m w with
    | (Returned a, w') => k a w'
    | (Raised e, w') => (Raised e, w')
    end.

Notation "x <- m ;; k" := (bind m (fun x => k))
  (at level 61, m at next level, right associativity).

Definition is_open (c : connection) (w : world) : bool :=
  existsb (Nat.eqb c) (open_connections w).

(** [pymysql.connect(...)] *)
Definition get_db_connection : IO connection :=
  fun w =>
    match connect_failure w with
    | Some e => (Raised e, w)
    | None =>
        (Returned (next_connection w),
         mkworld (db w) (connect_failure w) (query_failure w)
           (S (next_connection w))
           (next_connection w :: open_connections w))
    end.

(** [pd.read_sql(query, conn)] *)
Definition read_sql (query : statement) (conn : connection) : IO DataFrame :=
  fun w =>
    if is_open conn w then
      match query_failure w with
      | Some e => (Raised e, w)
      | None => (Returned (exec (db w) query), w)
      end
    else (Raised InterfaceError, w).

(** [conn.close()] *)
Definition close (conn : connection) : IO unit :=
  fun w =>
    if is_open conn w then
      (Returned tt,
       mkworld (db w) (connect_failure w) (query_failure w) (next_connection w)
         (filter (fun c => negb (Nat.eqb conn c)) (open_connections w)))
    else (Raised InterfaceError, w).

(** ** The three aggregation functions *)

Definition restaurant_query (start_date end_date : Py.value) : statement :=
  mkstatement PerRestaurant
    (StatusIs "delivered"
     :: (if Py.truthy start_date && Py.truthy end_date then
           [DateBetween (Py.str start_date) (Py.str end_date)]
         else if Py.truthy start_date then [DateIs (Py.str start_date)]
         else [])).

Definition get_restaurant_stats (start_date end_date : Py.value) : IO DataFrame :=
  conn <- get_db_connection ;;
  df <- read_sql (restaurant_query start_date end_date) conn ;;
  let df :=
    round_monetary
      ["total_order_amount"; "total_delivery_fee"; "total_additional_charge";
       "total_revenue"] df in
  _ <- close conn ;;
  ret df.

Definition delivery_query (start_date end_date : Py.value) : statement :=
  mkstatement PerCourier
    (StatusIs "delivered"
     :: (if Py.truthy start_date && Py.truthy end_date then
           [DateBetween (Py.str start_date) (Py.str end_date)]
         else if Py.truthy start_date then [DateIs (Py.str start_date)]
         else [])).

Definition get_delivery_stats (start_date end_date : Py.value) : IO DataFrame :=
  conn <- get_db_connection ;;
  df <- read_sql (delivery_query start_date end_date) conn ;;
  let df := round_monetary ["total_order_amount"; "total_delivery_fee"] df in
  _ <- close conn ;;
  ret df.

Definition final_query (start_date end_date : Py.value) : statement :=
  mkstatement Overall
    (StatusIs "delivered"
     :: (if Py.truthy start_date && Py.truthy end_date then
           [DateBetween (Py.str start_date) (Py.str end_date)]
         else if Py.truthy start_date then [DateIs (Py.str start_date)]
         else [])).

Definition get_final_stats (start_date end_date : Py.value) : IO DataFrame :=
  conn <- get_db_connection ;;
  df <- read_sql (final_query start_date end_date) conn ;;
  let df :=
    round_monetary
      ["total_order_amount"; "total_restaurant_revenue";
       "total_delivery_charge"; "total_additional_charge"] df in
  _ <- close conn ;;
  ret df.

(** The text of the statements as the Python code concatenates it. *)
Definition restaurant_query_text (start_date end_date : Py.value) : string :=
  let query := "
    SELECT 
        s.name as restaurant_name,
        COUNT(o.id) as total_orders,
        SUM(o.order_amount) as total_order_amount,
        SUM(o.delivery_charge) as total_delivery_fee,
        SUM(o.additional_charge) as total_additional_charge,
        SUM(o.order_amount - o.delivery_charge - o.additional_charge) as total_revenue
    FROM orders o
    JOIN stores s ON o.store_id = s.id
    WHERE o.order_status = 'delivered'
    " in
  let query :=
    if Py.truthy start_date && Py.truthy end_date then
      query ++ " AND DATE(o.created_at) BETWEEN '" ++ Py.str start_date
        ++ "' AND '" ++ Py.str end_date ++ "'"
    else if Py.truthy start_date then
      query ++ " AND DATE(o.created_at) = '" ++ Py.str start_date ++ "'"
    else query in
  query ++ " GROUP BY s.id, s.name ORDER BY total_revenue DESC".

Definition delivery_query_text (start_date end_date : Py.value) : string :=
  let query := "
    SELECT 
        dm.l_name as delivery_man_name,
        COUNT(o.id) as total_deliveries,
        SUM(o.order_amount) as total_order_amount,
        SUM(o.delivery_charge) as total_delivery_fee
    FROM orders o
    JOIN delivery_men dm ON o.delivery_man_id = dm.id
    WHERE o.order_status = 'delivered'
    " in
  let query :=
    if Py.truthy start_date && Py.truthy end_date then
      query ++ " AND DATE(o.created_at) BETWEEN '" ++ Py.str start_date
        ++ "' AND '" ++ Py.str end_date ++ "'"
    else if Py.truthy start_date then
      query ++ " AND DATE(o.created_at) = '" ++ Py.str start_date ++ "'"
    else query in
  query ++ " GROUP BY dm.id, dm.l_name ORDER BY total_order_amount DESC".

Definition final_query_text (start_date end_date : Py.value) : string :=
  let query := "
    SELECT 
        COUNT(id) as total_orders,
        COALESCE(SUM(order_amount), 0) as total_order_amount,
        COALESCE(SUM(order_amount - delivery_charge - additional_charge), 0) as total_restaurant_revenue,
        COALESCE(SUM(delivery_charge), 0) as total_delivery_charge,
        COALESCE(SUM(additional_charge), 0) as total_additional_charge
    FROM orders 
    WHERE order_status = 'delivered'
    " in
  if Py.truthy start_date && Py.truthy end_date then
    query ++ " AND DATE(created_at) BETWEEN '" ++ Py.str start_date
      ++ "' AND '" ++ Py.str end_date ++ "'"
  else if Py.truthy start_date then
    query ++ " AND DATE(created_at) = '" ++ Py.str start_date ++ "'"
  else query.

(** ** Export and the page *)

Section Dashboard.

(** The spreadsheet writer ([df.to_excel(writer, index=False)] through
    xlsxwriter) is a library; the page only hands its bytes on. *)
Variable to_excel : DataFrame -> list Byte.byte.

Definition export_to_excel (df : DataFrame) : list Byte.byte := to_excel df.

Definition get_date_range_text (start_date end_date : Py.value) : string :=
  if Py.truthy end_date then
    "from " ++ Py.str start_date ++ " to " ++ Py.str end_date
  else "for " ++ Py.str start_date.

(** What one run of the script reads from the browser and the clock.
    Streamlit reruns the script on each interaction; a button reads [True]
    only in the run its own click started, so at most one does per run. *)
Record ui := mkui {
  today : Py.date;                 (* datetime.now().date() *)
  pressed : option string;         (* label of the button that started the run *)
  start_input : Py.date;           (* st.date_input('Start Date') *)
  end_input : Py.date              (* st.date_input('End Date') *)
}.

(** [st.button(label)] *)
Definition clicked (u : ui) (label : string) : bool :=
  match pressed u with
  | Some l => String.eqb l label
  | None => false
  end.

(** The date range of the run: the branch on the sidebar button. *)
Definition selection (u : ui) : Py.value * Py.value :=
  if clicked u "Get Today's Stats" then (Py.VDate (today u), Py.VNone)
  else (Py.VDate (start_input u), Py.VDate (end_input u)).

(** What the run puts on the page, in order.  A metric keeps the cell it
    shows (the digit grouping of its text is not modelled). *)
Inductive element :=
| Title (s : string)
| Caption (s : string)
| SidebarHeader (s : string)
| Button (label : string)
| DateInput (label : string)
| Header (s : string)
| Warning (s : string)
| Metric (label : string) (value : cell)
| Table (df : DataFrame)
| DownloadButton (label : string) (data : list Byte.byte)
    (file_name : string) (mime : string).

(** [df[col].iloc[0]] *)
Definition iloc0 (col : string) (df : DataFrame) : IO cell :=
  match column col df with
  | None => raise KeyError
  | Some [] => raise IndexError
  | Some (c :: _) => ret c
  end.

(** [c == 0] *)
Definition is_zero (c : cell) : bool :=
  match c with
  | CInt z => Z.eqb z 0
  | CFloat q => Qeq_bool q 0
  | _ => false
  end.

Definition xlsx_mime : string :=
  "application/vnd.openxmlformats-officedocument.spreadsheetml.sheet".

(** The page of a run of [main()] that returns.  A run that raises is
    given with its error and the world it leaves; what it has drawn before
    is kept by [Script.main_script], of which this is the returning view. *)
Definition main (u : ui) : IO (list element) :=
  let top :=
    ([Title "Order Analytics Dashboard";
      Caption "Note: All statistics are based on delivered orders only";
      SidebarHeader "Date Range Selection";
      Button "Get Today's Stats"]
     ++ (if clicked u "Get Today's Stats" then []
         else [DateInput "Start Date"; DateInput "End Date"]))%list in
  let start_date := fst (selection u) in
  let end_date := snd (selection u) in
  final_stats <- get_final_stats start_date end_date ;;
  total_orders <- iloc0 "total_orders" final_stats ;;
  if is_zero total_orders then
    ret (top ++ [Header "Overall Statistics";
                 Warning ("No orders found "
                          ++ get_date_range_text start_date end_date)])%list
  else
    total_order_amount <- iloc0 "total_order_amount" final_stats ;;
    total_restaurant_revenue <- iloc0 "total_restaurant_revenue" final_stats ;;
    total_delivery_charge <- iloc0 "total_delivery_charge" final_stats ;;
    total_additional_charge <- iloc0 "total_additional_charge" final_stats ;;
    let overall :=
      ([Header "Overall Statistics";
       Metric "Total Orders" total_orders;
       Metric "Total Order Amount" total_order_amount;
       Metric "Total Restaurant Revenue" total_restaurant_revenue;
       Metric "Total Delivery Charge" total_delivery_charge;
        Metric "Total Additional Charge" total_additional_charge;
        Button "Export Overall Stats"]
       ++ (if clicked u "Export Overall Stats" then
            [DownloadButton "Download Overall Stats Excel"
               (export_to_excel final_stats)
               ("overall_stats_" ++ Py.str start_date ++ "_to_"
                  ++ Py.str end_date ++ ".xlsx")
               xlsx_mime]
          else []))%list in
    restaurant_stats <- get_restaurant_stats start_date end_date ;;
    let restaurants :=
      Header "Restaurant Statistics"
      :: (if empty restaurant_stats then
            [Warning ("No restaurant orders found "
                      ++ get_date_range_text start_date end_date)]
          else
            Table restaurant_stats
            :: Button "Export Restaurant Stats"
            :: (if clicked u "Export Restaurant Stats" then
                  [DownloadButton "Download Restaurant Stats Excel"
                     (export_to_excel restaurant_stats)
                     ("restaurant_stats_" ++ Py.str start_date ++ "_to_"
                        ++ Py.str end_date ++ ".xlsx")
                     xlsx_mime]
                else [])) in
    delivery_stats <- get_delivery_stats start_date end_date ;;
    let couriers :=
      Header "Delivery Man Statistics"
      :: (if empty delivery_stats then
            [Warning ("No delivery orders found "
                      ++ get_date_range_text start_date end_date)]
          else
            Table delivery_stats
            :: Button "Export Delivery Stats"
            :: (if clicked u "Export Delivery Stats" then
                  [DownloadButton "Download Delivery Stats Excel"
                     (export_to_excel delivery_stats)
                     ("delivery_stats_" ++ Py.str start_date ++ "_to_"
                        ++ Py.str end_date ++ ".xlsx")
                     xlsx_mime]
                else [])) in
    ret (top ++ overall ++ restaurants ++ couriers)%list.

End Dashboard.

End App.

(** ** Vocabulary of the properties *)

Module Spec.
Import Db Sql Pandas Engine App.
Local Open Scope string_scope.

(** The function behind each report, its statement and the columns it rounds. *)
Definition call (r : report) : Py.value -> Py.value -> IO DataFrame :=
  match r with
  | Overall => get_final_stats
  | PerRestaurant => get_restaurant_stats
  | PerCourier => get_delivery_stats
  end.

Definition query_of (r : report) : Py.value -> Py.value -> statement :=
  match r with
  | Overall => final_query
  | PerRestaurant => restaurant_query
  | PerCourier => delivery_query
  end.

Definition monetary_columns (r : report) : list string :=
  match r with
  | Overall =>
      ["total_order_amount"; "total_restaurant_revenue";
       "total_delivery_charge"; "total_additional_charge"]
  | PerRestaurant =>
      ["total_order_amount"; "total_delivery_fee"; "total_additional_charge";
       "total_revenue"]
  | PerCourier => ["total_order_amount"; "total_delivery_fee"]
  end.

(** The server can be reached and executes the statement. *)
Definition healthy (w : world) : Prop :=
  connect_failure w = None /\ query_failure w = None.

(** The world after a call that opened and closed one connection. *)
Definition after_call (w : world) : world :=
  mkworld (db w) (connect_failure w) (query_failure w)
    (S (next_connection w))
    (filter (fun c => negb (Nat.eqb (next_connection w) c)) (open_connections w)).

Definition delivered (o : order) : bool :=
  String.eqb (order_status o) "delivered".

(** The date filter in words: between both dates when both are given, the
    start date alone when only it is given, none otherwise. *)
Definition in_range (start_date end_date : Py.value) (o : order) : bool :=
  match start_date, end_date with
  | Py.VDate s, Py.VDate e =>
      Py.date_leb s (DATE (created_at o)) && Py.date_leb (DATE (created_at o)) e
  | Py.VDate s, _ => Py.date_eqb (DATE (created_at o)) s
  | _, _ => true
  end.

Definition well_formed (v : Py.value) : bool :=
  match v with
  | Py.VDate d => Py.valid d
  | _ => true
  end.

(** The names the reports give to their monetary columns. *)
Definition monetary_names : list string :=
  ["total_order_amount"; "total_delivery_fee"; "total_delivery_charge";
   "total_additional_charge"; "total_revenue"; "total_restaurant_revenue"].

(** A cell that holds a number with two decimals: [round(x, 2) == x]. *)
Definition two_decimals (c : cell) : Prop :=
  exists q, c = CFloat q /\ round2 q = q.

(** A sequence of numbers that never goes up. *)
Definition non_increasing (qs : list Q) : Prop :=
  forall (i j : nat) (x y : Q),
    (i <= j)%nat -> nth_error qs i = Some x -> nth_error qs j = Some y ->
    (y <= x)%Q.

(** The number held in row [i] of column [col]. *)
Definition float_at (col : string) (i : nat) (df : DataFrame) : option Q :=
  match column col df with
  | Some cells =>
      match nth_error cells i with
      | Some (CFloat q) => Some q
      | _ => None
      end
  | None => None
  end.



(** An amount with no fraction of a cent. *)
Definition whole_cents (q : Q) : Prop := exists n : Z, (q == n # 100)%Q.


(** The world whose table of orders keeps only the rows that satisfy [p]. *)
Definition with_orders_where (p : order -> bool) (w : world) : world :=
  mkworld (restrict p (db w)) (connect_failure w) (query_failure w)
    (next_connection w) (open_connections w).

(** The overall result over no orders: one row, count 0, every sum 0. *)
Definition zero_overall (res : outcome DataFrame) : Prop :=
  exists a b c d : Q,
    res = Returned (mkframe overall_columns
                      [[CInt 0; CFloat a; CFloat b; CFloat c; CFloat d]])
    /\ a == 0 /\ b == 0 /\ c == 0 /\ d == 0.

Definition columns_of (r : report) : list string :=
  match r with
  | Overall => overall_columns
  | PerRestaurant => restaurant_columns
  | PerCourier => courier_columns
  end.

(** A result with the columns of the report and no rows. *)
Definition no_rows (r : report) (res : outcome DataFrame) : Prop :=
  res = Returned (mkframe (columns_of r) []).

End Spec.

(** ** Sample data used to exercise the statements *)

Module Sample.
Import Db Pandas App.
Local Open Scope string_scope.

Definition day1 : Py.date := Py.mkdate 2024 3 7.
Definition day2 : Py.date := Py.mkdate 2024 3 9.

Definition noon (d : Py.date) : timestamp := mktimestamp d 12 0 0.

(** Scenario A: three delivered orders of one restaurant on one day. *)
Definition cafe_orders : list order :=
  [mkorder 1 (Some 7%Z) (Some 3%Z) 100 10 5 "delivered" (noon day1);
   mkorder 2 (Some 7%Z) (Some 3%Z) 200 20 0 "delivered" (noon day1);
   mkorder 3 (Some 7%Z) (Some 4%Z) 50 5 5 "delivered" (noon day1)].

Definition pending_order : order :=
  mkorder 4 (Some 8%Z) None 80 8 0 "pending" (noon day2).

Definition tables : database :=
  mkdatabase (cafe_orders ++ [pending_order])
    [mkstore 7 "Cafe X"; mkstore 8 "Diner Y"]
    [mkdelivery_man 3 "Rao"; mkdelivery_man 4 "Das"].

Definition server : world := mkworld tables None None 0%nat [].

(** A second restaurant whose one order outweighs the first three. *)
Definition diner_order : order :=
  mkorder 6 (Some 8%Z) (Some 4%Z) 800 60 20 "delivered" (noon day2).

Definition busy_server : world :=
  mkworld
    (mkdatabase (cafe_orders ++ [pending_order; diner_order])
       (stores tables) (delivery_men tables))
    None None 0%nat [].

(** A server that fails while it executes the statement. *)
Definition failing_server : world :=
  mkworld tables None (Some DatabaseError) 0%nat [].

(** Amounts with a third decimal. *)
Definition fine_order : order :=
  mkorder 5 (Some 7%Z) (Some 3%Z) (100004 # 1000) (10006 # 1000) 0
    "delivered" (noon day1).

Definition fine_server : world :=
  mkworld (mkdatabase [fine_order] [mkstore 7 "Cafe X"] [mkdelivery_man 3 "Rao"])
    None None 0%nat [].

(** A run started by the export button of the overall panel. *)
Definition export_run : ui :=
  mkui day1 (Some "Export Overall Stats") day1 day2.

Definition no_bytes (df : DataFrame) : list Byte.byte := [].

Definition export_page : list element :=
  Eval vm_compute in
    match fst (main no_bytes export_run server) with
    | Returned page => page
    | Raised _ => []
    end.

End Sample.

(** ** Vocabulary of the further properties *)

Module Derived.
Import Db Sql Pandas Engine App Spec.
Local Open Scope string_scope.

(** The orders a call with the two dates selects. *)
Definition selected (start_date end_date : Py.value) (o : order) : bool :=
  delivered o && in_range start_date end_date o.

(** The integer cells of a column added up. *)
Definition sum_counts (cells : list cell) : Z :=
  fold_right (fun c acc => match c with
                           | CInt z => (z + acc)%Z
                           | _ => acc
                           end) 0%Z cells.

(** The count in the single row of an overall result. *)
Definition overall_count (res : outcome DataFrame) : option Z :=
  match res with
  | Returned df =>
      match column "total_orders" df with
      | Some [CInt n] => Some n
      | _ => None
      end
  | Raised _ => None
  end.

(** The order points to a row of the joined table. *)
Definition references {T} (fk : order -> option Z) (pk : T -> Z)
    (ts : list T) (o : order) : Prop :=
  exists t, In t ts /\ fk o = Some (pk t).

(** The primary keys of a table are pairwise different. *)
Definition unique_ids {T} (pk : T -> Z) (ts : list T) : Prop :=
  NoDup (map pk ts).

(** The number of rows all groups hold together. *)
Definition group_sizes {A} (gs : list (key * list A)) : nat :=
  list_sum (map (fun g => List.length (snd g)) gs).

(** The column of a report that counts orders. *)
Definition count_column (r : report) : string :=
  match r with
  | PerCourier => "total_deliveries"
  | _ => "total_orders"
  end.

(** The order has a row to join in the table the report joins. *)
Definition joins (r : report) (d : database) (o : order) : Prop :=
  match r with
  | Overall => True
  | PerRestaurant => references store_id s_id (stores d) o
  | PerCourier => references delivery_man_id dm_id (delivery_men d) o
  end.

Definition joined_ids_unique (r : report) (d : database) : Prop :=
  match r with
  | Overall => True
  | PerRestaurant => unique_ids s_id (stores d)
  | PerCourier => unique_ids dm_id (delivery_men d)
  end.

(** The characters a date argument can put into the statement or a file
    name: digits, the hyphen, and the letters of [None]. *)
Definition plain_char (c : ascii) : bool :=
  let n := nat_of_ascii c in
  ((48 <=? n) && (n <=? 57) || (n =? 45)
   || (n =? 78) || (n =? 111) || (n =? 110) || (n =? 101))%nat.

Definition report_eqb (a b : report) : bool :=
  match a, b with
  | Overall, Overall | PerRestaurant, PerRestaurant | PerCourier, PerCourier =>
      true
  | _, _ => false
  end.

(** The number of quote characters in a text. *)
Fixpoint count_quotes (s : string) : nat :=
  match s with
  | EmptyString => O
  | String c s' =>
      ((if Ascii.eqb c "'" then 1 else 0) + count_quotes s')%nat
  end.

(** The text each function concatenates and sends. *)
Definition query_text (r : report) : Py.value -> Py.value -> string :=
  match r with
  | Overall => final_query_text
  | PerRestaurant => restaurant_query_text
  | PerCourier => delivery_query_text
  end.

(** The first part of every page: titles, the sidebar, the date pickers
    unless the run was started by the shortcut button. *)
Definition page_top (u : ui) : list element :=
  [Title "Order Analytics Dashboard";
   Caption "Note: All statistics are based on delivered orders only";
   SidebarHeader "Date Range Selection";
   Button "Get Today's Stats"]
  ++ (if clicked u "Get Today's Stats" then []
      else [DateInput "Start Date"; DateInput "End Date"]).

Definition is_download (el : element) : bool :=
  match el with
  | DownloadButton _ _ _ _ => true
  | _ => false
  end.

(** An order whose charges exceed its amount. *)
Definition loss_order : order :=
  mkorder 8 (Some 7%Z) (Some 3%Z) 10 15 (5 # 10) "delivered"
    (Sample.noon Sample.day1).

Definition loss_server : world :=
  mkworld (mkdatabase [loss_order] [mkstore 7 "Cafe X"] [mkdelivery_man 3 "Rao"])
    None None 0%nat [].

(** A run with a range in which nothing was ordered. *)
Definition quiet_run : ui :=
  mkui Sample.day1 None (Py.mkdate 2024 1 1) (Py.mkdate 2024 1 2).

(** A run started by the shortcut button, on the day of the first orders. *)
Definition today_run : ui :=
  mkui Sample.day1 (Some "Get Today's Stats") Sample.day2 Sample.day2.

Definition today_page : list element :=
  Eval vm_compute in
    match fst (main Sample.no_bytes today_run Sample.server) with
    | Returned page => page
    | Raised _ => []
    end.

End Derived.

(** ** The script of the page, drawing as it goes *)

Module Script.
Import Db Sql Pandas Engine App.
Local Open Scope string_scope.

(** A step of the script: it may draw on the screen (elements are added at
    the end, and stay when a later step raises) and act on the world. *)
Definition Run (A : Type) : Type :=
  list element -> world -> outcome A * list element * world.

Definition done {A} (a : A) : Run A := fun scr w => (Returned a, scr, w).

Definition and_then {A B} (m : Run A) (k : A -> Run B) : Run B :=
  fun scr w =>
    match m scr w with
    | (Returned a, scr', w') => k a scr' w'
    | (Raised x, scr', w') => (Raised x, scr', w')
    end.

Notation "x <== m ;; k" := (and_then m (fun x => k))
  (at level 61, m at next level, right associativity).

(** [st.title], [st.header], [st.metric], ...: one more element on the page. *)
Definition draw (el : element) : Run unit :=
  fun scr w => (Returned tt, (scr ++ [el])%list, w).

(** A call that does not draw. *)
Definition perform {A} (m : IO A) : Run A :=
  fun scr w => match m w with (r, w') => (r, scr, w') end.

(** [st.button(label)]: the button is drawn and reads whether it started
    the run. *)
Definition button (u : ui) (label : string) : Run bool :=
  _ <== draw (Button label) ;; done (clicked u label).

Section Page.
Variable to_excel : DataFrame -> list Byte.byte.

(** [main()], statement by statement. *)
Definition main_script (u : ui) : Run unit :=
  _ <== draw (Title "Order Analytics Dashboard") ;;
  _ <== draw (Caption "Note: All statistics are based on delivered orders only") ;;
  _ <== draw (SidebarHeader "Date Range Selection") ;;
  today_clicked <== button u "Get Today's Stats" ;;
  dates <== (if today_clicked : bool then done (Py.VDate (today u), Py.VNone)
             else
               _ <== draw (DateInput "Start Date") ;;
               _ <== draw (DateInput "End Date") ;;
               done (Py.VDate (start_input u), Py.VDate (end_input u))) ;;
  let start_date := fst dates in
  let end_date := snd dates in
  _ <== draw (Header "Overall Statistics") ;;
  final_stats <== perform (get_final_stats start_date end_date) ;;
  total_orders <== perform (iloc0 "total_orders" final_stats) ;;
  if is_zero total_orders then
    draw (Warning ("No orders found "
                   ++ get_date_range_text start_date end_date))
  else
    total_orders <== perform (iloc0 "total_orders" final_stats) ;;
    _ <== draw (Metric "Total Orders" total_orders) ;;
    total_order_amount <== perform (iloc0 "total_order_amount" final_stats) ;;
    _ <== draw (Metric "Total Order Amount" total_order_amount) ;;
    total_restaurant_revenue <==
      perform (iloc0 "total_restaurant_revenue" final_stats) ;;
    _ <== draw (Metric "Total Restaurant Revenue" total_restaurant_revenue) ;;
    total_delivery_charge <== perform (iloc0 "total_delivery_charge" final_stats) ;;
    _ <== draw (Metric "Total Delivery Charge" total_delivery_charge) ;;
    total_additional_charge <==
      perform (iloc0 "total_additional_charge" final_stats) ;;
    _ <== draw (Metric "Total Additional Charge" total_additional_charge) ;;
    export_overall <== button u "Export Overall Stats" ;;
    _ <== (if export_overall : bool then
             draw (DownloadButton "Download Overall Stats Excel"
                     (export_to_excel to_excel final_stats)
                     ("overall_stats_" ++ Py.str start_date ++ "_to_"
                        ++ Py.str end_date ++ ".xlsx")
                     xlsx_mime)
           else done tt) ;;
    _ <== draw (Header "Restaurant Statistics") ;;
    restaurant_stats <== perform (get_restaurant_stats start_date end_date) ;;
    _ <== (if empty restaurant_stats then
             draw (Warning ("No restaurant orders found "
                            ++ get_date_range_text start_date end_date))
           else
             _ <== draw (Table restaurant_stats) ;;
             export_restaurant <== button u "Export Restaurant Stats" ;;
             if export_restaurant : bool then
               draw (DownloadButton "Download Restaurant Stats Excel"
                       (export_to_excel to_excel restaurant_stats)
                       ("restaurant_stats_" ++ Py.str start_date ++ "_to_"
                          ++ Py.str end_date ++ ".xlsx")
                       xlsx_mime)
             else done tt) ;;
    _ <== draw (Header "Delivery Man Statistics") ;;
    delivery_stats <== perform (get_delivery_stats start_date end_date) ;;
    if empty delivery_stats then
      draw (Warning ("No delivery orders found "
                     ++ get_date_range_text start_date end_date))
    else
      _ <== draw (Table delivery_stats) ;;
      export_delivery <== button u "Export Delivery Stats" ;;
      if export_delivery : bool then
        draw (DownloadButton "Download Delivery Stats Excel"
                (export_to_excel to_excel delivery_stats)
                ("delivery_stats_" ++ Py.str start_date ++ "_to_"
                   ++ Py.str end_date ++ ".xlsx")
                xlsx_mime)
      else done tt.

End Page.

End Script.

(** ** The reports in words

    What each report says about a given list of orders, written without
    the statements and without the model of the server: counts and sums
    over the orders that point to each row of the joined table. *)

Module Policy.
Import Db Sql Pandas App Spec.
Local Open Scope string_scope.
Local Open Scope Q_scope.

Definition count_of (os : list order) : Z := Z.of_nat (List.length os).

Definition sum_of (f : order -> Q) (os : list order) : Q :=
  fold_right Qplus 0 (map f os).

(** What the restaurant keeps of an order. *)
Definition net (o : order) : Q :=
  order_amount o - delivery_charge o - additional_charge o.

(** The orders whose foreign key [fk] is [i]. *)
Definition pointing_to (fk : order -> option Z) (i : Z) (os : list order)
  : list order :=
  filter (fun o => match fk o with
                   | Some j => Z.eqb j i
                   | None => false
                   end) os.

Definition overall_over (os : list order) : DataFrame :=
  mkframe
    ["total_orders"; "total_order_amount"; "total_restaurant_revenue";
     "total_delivery_charge"; "total_additional_charge"]
    [[CInt (count_of os);
      CFloat (round2 (sum_of order_amount os));
      CFloat (round2 (sum_of net os));
      CFloat (round2 (sum_of delivery_charge os));
      CFloat (round2 (sum_of additional_charge os))]].

Definition restaurant_line (t : store) (os : list order) : list cell :=
  [CStr (s_name t);
   CInt (count_of os);
   CFloat (round2 (sum_of order_amount os));
   CFloat (round2 (sum_of delivery_charge os));
   CFloat (round2 (sum_of additional_charge os));
   CFloat (round2 (sum_of net os))].

Definition courier_line (t : delivery_man) (os : list order) : list cell :=
  [CStr (l_name t);
   CInt (count_of os);
   CFloat (round2 (sum_of order_amount os));
   CFloat (round2 (sum_of delivery_charge os))].

(** A grouped report over the orders [os]: one line for each row of the
    joined table that some order of [os] points to, in some order, made of
    the orders of [os] that point to it. *)
Definition grouped_over {T} (fk : order -> option Z) (pk : T -> Z)
    (line : T -> list order -> list cell) (cols : list string)
    (ts : list T) (os : list order) (df : DataFrame) : Prop :=
  exists ks : list T,
    NoDup ks
    /\ (forall t, In t ks <-> In t ts /\ pointing_to fk (pk t) os <> [])
    /\ df = mkframe cols (map (fun t => line t (pointing_to fk (pk t) os)) ks).

(** [df] is the report [r] over the orders [os] and the tables of [d]. *)
Definition report_over (r : report) (d : database) (os : list order)
    (df : DataFrame) : Prop :=
  match r with
  | Overall => df = overall_over os
  | PerRestaurant =>
      grouped_over store_id s_id restaurant_line
        ["restaurant_name"; "total_orders"; "total_order_amount";
         "total_delivery_fee"; "total_additional_charge"; "total_revenue"]
        (stores d) os df
  | PerCourier =>
      grouped_over delivery_man_id dm_id courier_line
        ["delivery_man_name"; "total_deliveries"; "total_order_amount";
         "total_delivery_fee"]
        (delivery_men d) os df
  end.

End Policy.

(** ** The spreadsheet of an export *)

Module Xlsx.
Import Pandas.
Local Open Scope Q_scope.












End Xlsx.


(** * Facts about the model *)

(** ** Date literals: the text of a well-formed date reads back as it *)

Module DateFacts.
Import Engine.

Lemma digit_value_digit (n : nat) :
  digit_value (Py.digit n) = Some (n mod 10)%nat.
Proof.
  unfold digit_value, Py.digit.
  assert (Hlt : (n mod 10 < 10)%nat) by (apply Nat.mod_upper_bound; discriminate).
  rewrite nat_ascii_embedding by lia.
  replace ((48 <=? 48 + n mod 10)%nat && (48 + n mod 10 <=? 57)%nat) with true.
  - f_equal. lia.
  - symmetry. apply andb_true_iff. split; apply Nat.leb_le; lia.
Qed.

Lemma number_pad2 (n : nat) :
  (n < 100)%nat -> number [Py.digit (n / 10); Py.digit n] = Some n.
Proof.
  intros H. unfold number. cbn [fold_left].
  rewrite !digit_value_digit. f_equal.
  pose proof (Nat.div_mod_eq n 10).
  assert ((n / 10) mod 10 = n / 10)%nat.
  { apply Nat.mod_small. apply Nat.Div0.div_lt_upper_bound. lia. }
  lia.
Qed.

Lemma number_pad4 (n : nat) :
  (n < 10 * 1000)%nat ->
  number [Py.digit (n / 1000); Py.digit (n / 100); Py.digit (n / 10); Py.digit n] = Some n.
Proof.
  intros H. unfold number. cbn [fold_left].
  rewrite !digit_value_digit. f_equal.
  pose proof (Nat.div_mod_eq n 10) as E0.
  pose proof (Nat.div_mod_eq (n / 10) 10) as E1.
  pose proof (Nat.div_mod_eq (n / 100) 10) as E2.
  replace (n / 10 / 10)%nat with (n / 100)%nat in E1
    by (rewrite Nat.Div0.div_div; reflexivity).
  replace (n / 100 / 10)%nat with (n / 1000)%nat in E2
    by (rewrite Nat.Div0.div_div; reflexivity).
  assert (E3 : ((n / 1000) mod 10 = n / 1000)%nat).
  { apply Nat.mod_small. apply Nat.Div0.div_lt_upper_bound. lia. }
  lia.
Qed.

Lemma date_literal_isoformat (d : Py.date) :
  Py.valid d = true -> date_literal (Py.isoformat d) = Some d.
Proof.
  destruct d as [y m dd]. intros V.
  assert (V' := V). unfold Py.valid in V'. cbn [Py.year Py.month Py.day] in V'.
  repeat (apply andb_true_iff in V'; destruct V' as [V' ?]).
  assert (Hy : (y < 10 * 1000)%nat) by (apply Nat.ltb_lt; assumption).
  assert (Hm : (m < 100)%nat).
  { match goal with H : (m <=? 12)%nat = true |- _ => apply Nat.leb_le in H end. lia. }
  assert (Hd : (dd < 100)%nat).
  { match goal with H : (dd <=? _)%nat = true |- _ => apply Nat.leb_le in H end.
    assert (Py.days_in_month y m <= 31)%nat.
    { unfold Py.days_in_month.
      do 12 (destruct m as [|m]; [ try destruct (Py.is_leap y); lia | ]). lia. }
    lia. }
  unfold date_literal, Py.isoformat, Py.pad4, Py.pad2.
  cbn [Py.year Py.month Py.day String.append list_ascii_of_string].
  cbn [Ascii.eqb Bool.eqb andb].
  rewrite (number_pad4 Hy), (number_pad2 Hm), (number_pad2 Hd), V.
  reflexivity.
Qed.


End DateFacts.

(** ** The statements rendered are the text the code concatenates *)

Module TextFacts.
Import Sql App.
Local Open Scope string_scope.

Lemma append_assoc' (a b c : string) : (a ++ b) ++ c = a ++ (b ++ c).
Proof. induction a as [|x a IH]; cbn; [reflexivity | now rewrite IH]. Qed.

Ltac same_text :=
  cbn [st_report st_where];
  match goal with
  | |- context [Py.truthy ?s && Py.truthy ?e] =>
      destruct (Py.truthy s && Py.truthy e); [ | destruct (Py.truthy s) ]
  end;
  cbn [where_text map String.concat condition_text qualifier select_text tail_text];
  repeat rewrite append_assoc'; cbn [String.append]; reflexivity.

Lemma restaurant_query_sql_text (s e : Py.value) :
  sql_text (restaurant_query s e) = restaurant_query_text s e.
Proof. unfold sql_text, restaurant_query, restaurant_query_text. same_text. Qed.

Lemma delivery_query_sql_text (s e : Py.value) :
  sql_text (delivery_query s e) = delivery_query_text s e.
Proof. unfold sql_text, delivery_query, delivery_query_text. same_text. Qed.

Lemma final_query_sql_text (s e : Py.value) :
  sql_text (final_query s e) = final_query_text s e.
Proof. unfold sql_text, final_query, final_query_text. same_text. Qed.

End TextFacts.

(** ** Rounding to two decimals *)

Module RoundFacts.
Import Pandas.
Local Open Scope Q_scope.

Lemma rint_cases (q : Q) :
  (q - inject_Z (Qfloor q) < 1 # 2 /\ rint q = Qfloor q)
  \/ (1 # 2 < q - inject_Z (Qfloor q) /\ rint q = (Qfloor q + 1)%Z)
  \/ (q - inject_Z (Qfloor q) == 1 # 2
      /\ rint q = if Z.even (Qfloor q) then Qfloor q else (Qfloor q + 1)%Z).
Proof.
  unfold rint.
  destruct (Qcompare (q - inject_Z (Qfloor q)) (1 # 2)) eqn:E.
  - right; right. split; [ now apply Qeq_alt | reflexivity ].
  - left. split; [ now apply Qlt_alt | reflexivity ].
  - right; left. split; [ now apply Qgt_alt | reflexivity ].
Qed.


Lemma rint_of_integer (q : Q) (n : Z) : q == inject_Z n -> rint q = n.
Proof.
  intros E. unfold rint. rewrite (Qfloor_comp _ _ E), Qfloor_Z.
  assert (C : Qcompare (q - inject_Z n) (1 # 2) = Lt).
  { apply (proj1 (Qlt_alt _ _)). generalize dependent (inject_Z n). intros z E. lra. }
  rewrite C. reflexivity.
Qed.

Lemma round2_idempotent (q : Q) : round2 (round2 q) = round2 q.
Proof.
  unfold round2 at 1 3. f_equal.
  apply rint_of_integer. unfold round2, Qeq, Qmult, inject_Z. cbn. lia.
Qed.


Lemma rint_monotone (p q : Q) : p <= q -> (rint p <= rint q)%Z.
Proof.
  intros L.
  pose proof (Qfloor_resp_le _ _ L) as F.
  pose proof (Qfloor_le p) as Hp. pose proof (Qlt_floor p) as Hp'.
  pose proof (Qfloor_le q) as Hq. pose proof (Qlt_floor q) as Hq'.
  rewrite inject_Z_plus in Hp', Hq'. change (inject_Z 1) with 1 in Hp', Hq'.
  destruct (Z.eq_dec (Qfloor p) (Qfloor q)) as [E | N].
  - destruct (rint_cases p) as [[A ->] | [[A ->] | [A ->]]];
      destruct (rint_cases q) as [[B ->] | [[B ->] | [B ->]]];
      rewrite E in *; try destruct (Z.even (Qfloor q)); try lia; exfalso; lra.
  - assert (Qfloor p + 1 <= Qfloor q)%Z by lia.
    destruct (rint_cases p) as [[A ->] | [[A ->] | [A ->]]];
      destruct (rint_cases q) as [[B ->] | [[B ->] | [B ->]]];
      try destruct (Z.even (Qfloor p)); try destruct (Z.even (Qfloor q)); lia.
Qed.

Lemma round2_monotone (p q : Q) : p <= q -> round2 p <= round2 q.
Proof.
  intros L. unfold round2, Qle. cbn.
  apply Z.mul_le_mono_nonneg_r; [ lia | ].
  apply rint_monotone. lra.
Qed.

Lemma round2_compat (p q : Q) : p == q -> round2 p = round2 q.
Proof.
  intros E. unfold round2. f_equal. unfold rint.
  assert (E' : p * 100 == q * 100) by lra.
  rewrite (Qfloor_comp _ _ E').
  assert (C : Qcompare (p * 100 - inject_Z (Qfloor (q * 100))) (1 # 2)
              = Qcompare (q * 100 - inject_Z (Qfloor (q * 100))) (1 # 2)).
  { apply Qcompare_comp; lra. }
  rewrite C. reflexivity.
Qed.

End RoundFacts.

(** ** The server's answer: WHERE, groups and ORDER BY *)

Module EngineFacts.
Import Db Sql Pandas Engine.
Local Open Scope Q_scope.

Section Join.
Context {T : Type} (fk : order -> option Z) (pk : T -> Z).

Lemma filter_pairs (p : order -> bool) (o : order) (ts : list T) :
  filter (fun ot => p (fst ot)) (map (fun t => (o, t)) ts)
  = if p o then map (fun t => (o, t)) ts else [].
Proof.
  induction ts as [|t ts IH]; cbn.
  - now destruct (p o).
  - rewrite IH. now destruct (p o).
Qed.

(** WHERE on the columns of [orders] can be applied before the join. *)
Lemma filter_JOIN (p : order -> bool) (os : list order) (ts : list T) :
  filter (fun ot => p (fst ot)) (JOIN fk pk os ts) = JOIN fk pk (filter p os) ts.
Proof.
  unfold JOIN. induction os as [|o os IH]; cbn; [ reflexivity | ].
  rewrite filter_app, IH, filter_pairs.
  destruct (p o); reflexivity.
Qed.

Lemma JOIN_nil (ts : list T) : JOIN fk pk [] ts = [].
Proof. reflexivity. Qed.

End Join.

Lemma filter_true {A} (l : list A) : filter (fun _ => true) l = l.
Proof. induction l as [|x l IH]; cbn; [ reflexivity | now rewrite IH ]. Qed.

Lemma groups_where {T} (fk : order -> option Z) (pk : T -> Z) (name : T -> string)
    (cs : list condition) (os : list order) (ts : list T) :
  groups fk pk name cs os ts
  = groups fk pk name [] (filter (where_holds cs) os) ts.
Proof.
  unfold groups. rewrite filter_JOIN.
  rewrite (filter_JOIN fk pk (where_holds [])).
  unfold where_holds at 2. cbn [forallb]. now rewrite filter_true.
Qed.

(** Restricting the table to the rows that pass WHERE and dropping WHERE
    gives the same answer. *)
Lemma exec_where (d : database) (r : report) (cs : list condition) :
  exec d (mkstatement r cs)
  = exec (restrict (where_holds cs) d) (mkstatement r []).
Proof.
  unfold exec, restrict. cbn [st_report st_where orders stores delivery_men].
  destruct r.
  - unfold where_holds at 2. cbn [forallb]. now rewrite filter_true.
  - now rewrite groups_where.
  - now rewrite groups_where.
Qed.

Lemma exec_ext (d : database) (r : report) (cs cs' : list condition) :
  (forall o, In o (orders d) -> where_holds cs o = where_holds cs' o) ->
  exec d (mkstatement r cs) = exec d (mkstatement r cs').
Proof.
  intros H. rewrite (exec_where d r cs), (exec_where d r cs').
  unfold restrict. now rewrite (filter_ext_in _ _ _ H).
Qed.

(** Groups are never empty. *)
Lemma add_to_group_nonempty {A} (k : key) (x : A) (gs : list (key * list A)) :
  Forall (fun g => snd g <> []) gs ->
  Forall (fun g => snd g <> []) (add_to_group k x gs).
Proof.
  induction 1 as [|[k' xs] gs Hg Hgs IH]; cbn.
  - constructor; [ discriminate | constructor ].
  - destruct (key_eqb k' k); constructor; cbn; auto.
    destruct xs; discriminate.
Qed.

Lemma GROUP_BY_nonempty {A} (kf : A -> key) (l : list A) :
  Forall (fun g => snd g <> []) (GROUP_BY kf l).
Proof.
  unfold GROUP_BY.
  assert (G : forall gs, Forall (fun g : key * list A => snd g <> []) gs ->
            Forall (fun g => snd g <> [])
              (fold_left (fun gs x => add_to_group (kf x) x gs) l gs)).
  { induction l as [|x l IH]; cbn; intros gs Hgs; [ assumption | ].
    apply IH. now apply add_to_group_nonempty. }
  apply G. constructor.
Qed.

Lemma groups_nonempty {T} (fk : order -> option Z) (pk : T -> Z) (name : T -> string)
    (cs : list condition) (os : list order) (ts : list T) :
  Forall (fun g => snd g <> []) (groups fk pk name cs os ts).
Proof.
  unfold groups. apply Forall_map.
  eapply Forall_impl; [ | apply GROUP_BY_nonempty ].
  intros [k xs] H. cbn in *. destruct xs; [ congruence | discriminate ].
Qed.

Lemma groups_no_orders {T} (fk : order -> option Z) (pk : T -> Z) (name : T -> string)
    (cs : list condition) (ts : list T) :
  groups fk pk name cs [] ts = [].
Proof. reflexivity. Qed.

(** ORDER BY ... DESC *)
Section Order.
Context {A : Type} (f : A -> Q).

Lemma insert_desc_In (x y : A) (l : list A) :
  In y (insert_desc f x l) <-> y = x \/ In y l.
Proof.
  induction l as [|z l IH]; cbn.
  - intuition.
  - destruct (Qle_bool (f z) (f x)); cbn; rewrite ?IH; intuition.
Qed.

Lemma ORDER_BY_DESC_In (y : A) (l : list A) :
  In y (ORDER_BY_DESC f l) <-> In y l.
Proof.
  unfold ORDER_BY_DESC. induction l as [|x l IH]; cbn.
  - reflexivity.
  - rewrite insert_desc_In, IH. intuition.
Qed.

Lemma ORDER_BY_DESC_Forall (P : A -> Prop) (l : list A) :
  Forall P l -> Forall P (ORDER_BY_DESC f l).
Proof.
  rewrite !Forall_forall. intros H y Hy. apply H. now apply ORDER_BY_DESC_In.
Qed.

Lemma insert_desc_sorted (x : A) (l : list A) :
  StronglySorted (desc f) l -> StronglySorted (desc f) (insert_desc f x l).
Proof.
  induction 1 as [|y l Hl IH Hy]; cbn.
  - repeat constructor.
  - destruct (Qle_bool (f y) (f x)) eqn:E.
    + apply Qle_bool_iff in E.
      constructor; [ now constructor | ].
      constructor; [ exact E | ].
      eapply Forall_impl; [ | exact Hy ].
      unfold desc. intros z Hz. lra.
    + assert (L : f x <= f y).
      { destruct (Qlt_le_dec (f x) (f y)) as [L | L]; [ lra | ].
        apply Qle_bool_iff in L. congruence. }
      constructor; [ exact IH | ].
      apply Forall_forall. intros z Hz. apply insert_desc_In in Hz.
      destruct Hz as [-> | Hz]; [ exact L | ].
      rewrite Forall_forall in Hy. now apply Hy.
Qed.

Lemma ORDER_BY_DESC_sorted (l : list A) : StronglySorted (desc f) (ORDER_BY_DESC f l).
Proof.
  unfold ORDER_BY_DESC. induction l as [|x l IH]; cbn.
  - constructor.
  - now apply insert_desc_sorted.
Qed.

Lemma ORDER_BY_DESC_length (l : list A) :
  List.length (ORDER_BY_DESC f l) = List.length l.
Proof.
  unfold ORDER_BY_DESC. induction l as [|x l IH]; cbn; [ reflexivity | ].
  rewrite <- IH. generalize (fold_right (insert_desc f) [] l). intros m.
  induction m as [|z m IHm]; cbn; [ reflexivity | ].
  destruct (Qle_bool (f z) (f x)); cbn; [ reflexivity | now rewrite IHm ].
Qed.

End Order.

End EngineFacts.

(** ** The rounding loop over a frame *)

Module FrameFacts.
Import Db Sql Pandas Engine.
Local Open Scope Q_scope.

Lemma position_has_column (col : string) (cols : list string) (i : nat) :
  position col cols = Some i -> existsb (String.eqb col) cols = true.
Proof.
  revert i. induction cols as [|c cs IH]; cbn; intros i H; [ discriminate | ].
  destruct (String.eqb col c); [ reflexivity | ].
  destruct (position col cs); [ now apply (IH n) | discriminate ].
Qed.

(** The loop over [monetary_columns], for columns the frame has. *)
Lemma round_loop (cols0 : list string) (cols : list string) (ps : list nat) :
  Forall2 (fun col i => position col cols0 = Some i) cols ps ->
  forall rs,
    fold_left (fun d col => if has_column col d then round_column col d else d)
      cols (mkframe cols0 rs)
    = mkframe cols0
        (map (fun r => fold_left (fun r i => apply_at round_cell i r) ps r) rs).
Proof.
  induction 1 as [|col i cols ps Hp _ IH]; intros rs; cbn [fold_left].
  - now rewrite map_id.
  - unfold has_column, round_column. cbn [columns rows].
    rewrite (position_has_column _ _ Hp), Hp, IH, map_map. reflexivity.
Qed.

Lemma round_monetary_frame (cols0 cols : list string) (ps : list nat)
    (rs : list (list cell)) :
  Forall2 (fun col i => position col cols0 = Some i) cols ps ->
  round_monetary cols (mkframe cols0 rs)
  = mkframe cols0
      (map (fun r => fold_left (fun r i => apply_at round_cell i r) ps r) rs).
Proof.
  intros H. unfold round_monetary.
  destruct (negb (empty (mkframe cols0 rs))) eqn:E.
  - now apply round_loop.
  - destruct rs as [|r rs]; [ reflexivity | ].
    unfold empty in E. cbn [columns rows List.length] in E.
    destruct cols0 as [|c cols0]; cbn in E; [ | discriminate ].
    inversion H; subst; [ | cbn in *; discriminate ].
    cbn. now rewrite map_id.
Qed.
End FrameFacts.

(** ** What a call returns when the server answers *)

Module CallFacts.
Import Db Sql Pandas Engine App Spec.
Import EngineFacts FrameFacts DateFacts.
Local Open Scope string_scope.

Lemma call_healthy (r : report) (s e : Py.value) (w : world) :
  healthy w ->
  call r s e w
  = (Returned (round_monetary (monetary_columns r) (exec (db w) (query_of r s e))),
     after_call w).
Proof.
  intros [Hc Hq]. unfold after_call.
  destruct r; unfold call, get_final_stats, get_restaurant_stats,
    get_delivery_stats, bind, get_db_connection, read_sql, close, is_open, ret;
    rewrite Hc; cbn [open_connections existsb query_failure db connect_failure
                     next_connection];
    rewrite Nat.eqb_refl; cbn [orb]; rewrite Hq;
    cbn [open_connections existsb query_failure db connect_failure
         next_connection filter];
    rewrite Nat.eqb_refl; cbn [orb negb]; reflexivity.
Qed.

Lemma rounded_exec (d : database) (st : statement) :
  round_monetary (monetary_columns (st_report st)) (exec d st)
  = mkframe (columns (exec d st)) (map (map round_cell) (rows (exec d st))).
Proof.
  unfold exec. destruct (st_report st); cbn [monetary_columns columns rows].
  - rewrite (@round_monetary_frame overall_columns _ [1; 2; 3; 4]%nat)
      by (repeat constructor).
    reflexivity.
  - rewrite (@round_monetary_frame restaurant_columns _ [2; 3; 4; 5]%nat)
      by (repeat constructor).
    f_equal. rewrite !map_map. reflexivity.
  - rewrite (@round_monetary_frame courier_columns _ [2; 3]%nat)
      by (repeat constructor).
    f_equal. rewrite !map_map. reflexivity.
Qed.

Lemma query_where (r : report) (s e : Py.value) :
  st_where (query_of r s e) = st_where (final_query s e)
  /\ st_report (query_of r s e) = r.
Proof. destruct r; split; reflexivity. Qed.

Lemma where_query (r : report) (s e : Py.value) (o : order) :
  well_formed s = true -> well_formed e = true ->
  where_holds (st_where (query_of r s e)) o = delivered o && in_range s e o.
Proof.
  intros Hs He. rewrite (proj1 (query_where r s e)).
  unfold final_query, where_holds, delivered, in_range. cbn [st_where].
  destruct s as [| |a]; destruct e as [| |b];
    cbn [Py.truthy andb forallb holds Py.str well_formed] in *;
    rewrite ?(date_literal_isoformat _ Hs), ?(date_literal_isoformat _ He);
    rewrite ?andb_true_r; reflexivity.
Qed.
End CallFacts.

(** ** The scenarios of the specification, evaluated *)

Module Scenarios.
Import Db Sql Pandas Engine App.
Local Open Scope string_scope.

Example isoformat_pads_with_zeros :
  Py.isoformat (Py.mkdate 2024 3 7) = "2024-03-07".
Proof. reflexivity. Qed.

Example single_day_clause :
  where_text Overall (st_where (final_query (Py.VDate Sample.day1) Py.VNone))
  = "order_status = 'delivered'
     AND DATE(created_at) = '2024-03-07'".
Proof. reflexivity. Qed.

(** Scenario A: (100, 10, 5), (200, 20, 0), (50, 5, 5) for one restaurant. *)
Example scenario_A :
  fst (get_restaurant_stats (Py.VDate Sample.day1) Py.VNone Sample.server)
  = Returned
      (mkframe restaurant_columns
         [[CStr "Cafe X"; CInt 3; CFloat (35000 # 100); CFloat (3500 # 100);
           CFloat (1000 # 100); CFloat (30500 # 100)]]).
Proof. vm_compute. reflexivity. Qed.

(** The couriers of the same orders, largest order amount first. *)
Example scenario_A_couriers :
  fst (get_delivery_stats (Py.VDate Sample.day1) Py.VNone Sample.server)
  = Returned
      (mkframe courier_columns
         [[CStr "Rao"; CInt 2; CFloat (30000 # 100); CFloat (3000 # 100)];
          [CStr "Das"; CInt 1; CFloat (5000 # 100); CFloat (500 # 100)]]).
Proof. vm_compute. reflexivity. Qed.

End Scenarios.

(** ** Facts about the results of the three functions and of the page *)

Module ResultFacts.
Import Db Sql Pandas Engine App Spec.
Import EngineFacts FrameFacts DateFacts CallFacts RoundFacts.
Local Open Scope string_scope.

Lemma call_outcome (r : report) (s e : Py.value) (w : world) :
  fst (call r s e w)
  = match connect_failure w with
    | Some x => Raised x
    | None =>
        match query_failure w with
        | Some x => Raised x
        | None =>
            Returned (round_monetary (monetary_columns r)
                        (exec (db w) (query_of r s e)))
        end
    end.
Proof.
  destruct (connect_failure w) as [x|] eqn:Hc.
  - destruct r; unfold call, get_final_stats, get_restaurant_stats,
      get_delivery_stats, bind, get_db_connection; rewrite Hc; reflexivity.
  - destruct (query_failure w) as [x|] eqn:Hq.
    + destruct r; unfold call, get_final_stats, get_restaurant_stats,
        get_delivery_stats, bind, get_db_connection, read_sql, is_open;
        rewrite Hc; cbn [open_connections existsb query_failure];
        rewrite Nat.eqb_refl; cbn [orb]; rewrite Hq; reflexivity.
    + now rewrite (call_healthy r s e (conj Hc Hq)).
Qed.

Lemma filter_filter_implied {A} (p q : A -> bool) (l : list A) :
  (forall x, p x = true -> q x = true) ->
  filter p (filter q l) = filter p l.
Proof.
  intros H. induction l as [|x l IH]; cbn; [ reflexivity | ].
  destruct (q x) eqn:Q; cbn.
  - now rewrite IH.
  - destruct (p x) eqn:P; [ | exact IH ].
    apply H in P. congruence.
Qed.

Lemma filter_none {A} (p : A -> bool) (l : list A) :
  (forall x, In x l -> p x = false) -> filter p l = [].
Proof.
  induction l as [|x l IH]; intros H; [ reflexivity | ].
  cbn [filter]. rewrite (H x (or_introl eq_refl)). apply IH.
  intros y Hy. apply H. now right.
Qed.

Lemma where_delivered (r : report) (s e : Py.value) (o : order) :
  where_holds (st_where (query_of r s e)) o = true -> delivered o = true.
Proof.
  rewrite (proj1 (query_where r s e)). unfold final_query, where_holds, delivered.
  cbn [st_where forallb holds]. intros H. now apply andb_true_iff in H.
Qed.

Lemma exec_delivered (r : report) (s e : Py.value) (d : database) :
  exec (restrict delivered d) (query_of r s e) = exec d (query_of r s e).
Proof.
  replace (query_of r s e) with (mkstatement r (st_where (query_of r s e)))
    by (destruct r; reflexivity).
  rewrite (exec_where d), (exec_where (restrict delivered d)).
  unfold restrict. cbn [orders stores delivery_men].
  rewrite filter_filter_implied; [ reflexivity | ].
  intros o. change (st_where (mkstatement r (st_where (query_of r s e))))
    with (st_where (query_of r s e)). apply where_delivered.
Qed.

Lemma round2_zero : round2 0 == 0.
Proof. reflexivity. Qed.

Lemma overall_no_match (s e : Py.value) (w : world) :
  healthy w ->
  (forall o, In o (orders (db w)) ->
     where_holds (st_where (final_query s e)) o = false) ->
  zero_overall (fst (get_final_stats s e w)).
Proof.
  intros H N. change get_final_stats with (call Overall).
  rewrite (call_healthy Overall s e H). cbn [fst query_of].
  change (final_query s e) with (mkstatement Overall (st_where (final_query s e))) at 1.
  rewrite exec_where. unfold restrict.
  replace (filter (where_holds (st_where (final_query s e))) (orders (db w)))
    with (@nil order).
  - exists (round2 0), (round2 0), (round2 0), (round2 0).
    split; [ reflexivity | ]. repeat split; exact round2_zero.
  - symmetry. now apply filter_none.
Qed.

Lemma grouped_no_match (r : report) (s e : Py.value) (w : world) :
  r <> Overall ->
  healthy w ->
  (forall o, In o (orders (db w)) ->
     where_holds (st_where (final_query s e)) o = false) ->
  no_rows r (fst (call r s e w)).
Proof.
  intros R H N. rewrite (call_healthy r s e H). cbn [fst].
  replace (query_of r s e) with (mkstatement r (st_where (final_query s e)))
    by (destruct r; reflexivity).
  rewrite exec_where. unfold restrict.
  replace (filter (where_holds (st_where (final_query s e))) (orders (db w)))
    with (@nil order).
  - destruct r; [ congruence | | ]; reflexivity.
  - symmetry. now apply filter_none.
Qed.

Lemma date_leb_trans (a b c : Py.date) :
  Py.date_leb a b = true -> Py.date_leb b c = true -> Py.date_leb a c = true.
Proof.
  unfold Py.date_leb. destruct a as [ya ma da], b as [yb mb db'], c as [yc mc dc].
  cbn [Py.year Py.month Py.day].
  rewrite !orb_true_iff, !andb_true_iff, !orb_true_iff, !andb_true_iff,
    !Nat.ltb_lt, !Nat.eqb_eq, !Nat.leb_le.
  lia.
Qed.

Lemma reversed_range_empty (a b : Py.date) (o : order) :
  Py.date_ltb b a = true ->
  in_range (Py.VDate a) (Py.VDate b) o = false.
Proof.
  unfold Py.date_ltb, in_range. intros H.
  destruct (Py.date_leb a (DATE (created_at o))) eqn:E1; [ | reflexivity ].
  destruct (Py.date_leb (DATE (created_at o)) b) eqn:E2; [ | reflexivity ].
  rewrite (date_leb_trans _ _ _ E1 E2) in H. discriminate.
Qed.

Lemma column_rounded (col : string) (cols : list string) (rs : list (list cell)) :
  column col (mkframe cols (map (map round_cell) rs))
  = option_map (map round_cell) (column col (mkframe cols rs)).
Proof.
  unfold column. cbn [columns rows].
  destruct (position col cols) as [i|]; [ | reflexivity ].
  cbn [option_map]. f_equal. rewrite !map_map.
  apply map_ext. intros r.
  exact (List.map_nth round_cell r CNaN i).
Qed.

Lemma numeric_SUM_nonempty {A} (f : A -> Q) (l : list A) :
  l <> [] -> numeric (SUM f l) = CFloat (total f l).
Proof. destruct l; [ congruence | reflexivity ]. Qed.

(** The cells of the rows of a grouped answer, group by group. *)
Lemma restaurant_row_cells (g : key * list order) :
  snd g <> [] ->
  restaurant_row g
  = [CStr (snd (fst g)); CInt (COUNT (snd g));
     CFloat (total order_amount (snd g)); CFloat (total delivery_charge (snd g));
     CFloat (total additional_charge (snd g)); CFloat (total net_revenue (snd g))].
Proof.
  intros H. unfold restaurant_row. now rewrite !numeric_SUM_nonempty.
Qed.

Lemma courier_row_cells (g : key * list order) :
  snd g <> [] ->
  courier_row g
  = [CStr (snd (fst g)); CInt (COUNT (snd g));
     CFloat (total order_amount (snd g)); CFloat (total delivery_charge (snd g))].
Proof.
  intros H. unfold courier_row. now rewrite !numeric_SUM_nonempty.
Qed.

Lemma map_ext_Forall {A B} (f g : A -> B) (l : list A) :
  Forall (fun x => f x = g x) l -> map f l = map g l.
Proof. induction 1; cbn; congruence. Qed.

(** The answer of the server, with the cells of every row spelled out. *)
Lemma exec_cells (d : database) (st : statement) :
  exec d st
  = match st_report st with
    | Overall =>
        mkframe overall_columns
          [overall_row (filter (where_holds (st_where st)) (orders d))]
    | PerRestaurant =>
        mkframe restaurant_columns
          (map (fun g =>
                  [CStr (snd (fst g)); CInt (COUNT (snd g));
                   CFloat (total order_amount (snd g));
                   CFloat (total delivery_charge (snd g));
                   CFloat (total additional_charge (snd g));
                   CFloat (total net_revenue (snd g))])
             (ORDER_BY_DESC (fun g => total net_revenue (snd g))
                (groups store_id s_id s_name (st_where st) (orders d) (stores d))))
    | PerCourier =>
        mkframe courier_columns
          (map (fun g =>
                  [CStr (snd (fst g)); CInt (COUNT (snd g));
                   CFloat (total order_amount (snd g));
                   CFloat (total delivery_charge (snd g))])
             (ORDER_BY_DESC (fun g => total order_amount (snd g))
                (groups delivery_man_id dm_id l_name (st_where st)
                   (orders d) (delivery_men d))))
    end.
Proof.
  unfold exec. destruct (st_report st); [ reflexivity | | ]; f_equal;
    apply map_ext_Forall; apply ORDER_BY_DESC_Forall;
    (eapply Forall_impl; [ | apply groups_nonempty ]); intros g Hg.
  - now apply restaurant_row_cells.
  - now apply courier_row_cells.
Qed.

Lemma column_of_rows {A} (col : string) (cols : list string)
    (rowf : A -> list cell) (l : list A) :
  column col (mkframe cols (map rowf l))
  = match position col cols with
    | Some i => Some (map (fun x => nth i (rowf x) CNaN) l)
    | None => None
    end.
Proof.
  unfold column. cbn [columns rows].
  destruct (position col cols); [ | reflexivity ]. now rewrite map_map.
Qed.

Lemma two_decimals_round2 (q : Q) : two_decimals (CFloat (round2 q)).
Proof. exists (round2 q). split; [ reflexivity | apply round2_idempotent ]. Qed.

Lemma result_frame (r : report) (s e : Py.value) (w : world) :
  healthy w ->
  fst (call r s e w)
  = Returned (mkframe (columns (exec (db w) (query_of r s e)))
                (map (map round_cell) (rows (exec (db w) (query_of r s e))))).
Proof.
  intros H. rewrite (call_healthy r s e H). cbn [fst]. f_equal.
  rewrite <- rounded_exec. now rewrite (proj2 (query_where r s e)).
Qed.

Ltac eval_position :=
  match goal with
  | |- context [position ?c ?cols] =>
      let p := eval vm_compute in (position c cols) in
      change (position c cols) with p
  end.

Ltac name_cases H :=
  repeat match type of H with
         | _ \/ _ => destruct H as [H | H]
         | False => destruct H
         end.

Ltac not_this_column col N :=
  match goal with
  | E : String.eqb col ?name = true |- _ =>
      apply String.eqb_eq in E; exfalso; apply N; rewrite E; cbn; tauto
  end.

Lemma sorted_non_increasing {A} (f : A -> Q) (h : Q -> Q) (l : list A) :
  (forall p q, (p <= q)%Q -> (h p <= h q)%Q) ->
  StronglySorted (desc f) l ->
  non_increasing (map (fun x => h (f x)) l).
Proof.
  intros Hh. induction 1 as [|a l Hl IH Ha]; intros i j x y Hij Hi Hj.
  - destruct i; discriminate.
  - destruct i as [|i]; destruct j as [|j]; cbn in Hi, Hj.
    + injection Hi as <-. injection Hj as <-. apply Qle_refl.
    + injection Hi as <-. apply nth_error_In in Hj. apply in_map_iff in Hj.
      destruct Hj as (b & <- & Hb). apply Hh.
      rewrite Forall_forall in Ha. exact (Ha b Hb).
    + lia.
    + apply (IH i j); [ lia | assumption | assumption ].
Qed.

Local Open Scope Q_scope.

Lemma COALESCE_SUM {A} (f : A -> Q) (l : list A) : COALESCE (SUM f l) 0 = total f l.
Proof. destruct l; reflexivity. Qed.





Local Open Scope string_scope.

Lemma bind_returned {A B} (m : IO A) (k : A -> IO B) (w : world) (b : B) :
  fst (bind m k w) = Returned b ->
  exists a w', m w = (Returned a, w') /\ fst (k a w') = Returned b.
Proof.
  unfold bind. destruct (m w) as [[a|x] w']; cbn [fst]; intros E.
  - now exists a, w'.
  - discriminate.
Qed.


Ltac find_button H :=
  repeat match type of H with
         | In _ (_ ++ _)%list => apply in_app_or in H; destruct H as [H | H]
         | In _ (_ :: _) => destruct H as [H | H]
         | In _ [] => destruct H
         | In _ (if ?c then _ else _) => destruct c eqn:?
         | Title _ = _ => discriminate H
         | SidebarHeader _ = _ => discriminate H
         | Button _ = _ => discriminate H
         | DateInput _ = _ => discriminate H
         | Caption _ = _ => discriminate H
         | Header _ = _ => discriminate H
         | Warning _ = _ => discriminate H
         | Metric _ _ = _ => discriminate H
         | Table _ = _ => discriminate H
         end.

Local Open Scope Q_scope.

Lemma round2_whole_cents (q : Q) : whole_cents q -> round2 q == q.
Proof.
  intros [n Hn]. unfold round2.
  rewrite (@rint_of_integer (q * 100) n).
  - now rewrite Hn.
  - rewrite Hn. unfold Qeq, Qmult, inject_Z. cbn. lia.
Qed.







End ResultFacts.


(** ** Further facts: connections, date ranges, counts *)

Module CallMore.
Import Db Sql Pandas Engine App Spec Derived.
Import EngineFacts FrameFacts DateFacts CallFacts RoundFacts ResultFacts.
Local Open Scope string_scope.

Lemma filter_other_handles (n : connection) (held : list connection) :
  ~ In n held -> filter (fun c => negb (Nat.eqb n c)) held = held.
Proof.
  induction held as [|c held IH]; intros N; [ reflexivity | ].
  cbn [filter]. destruct (Nat.eqb n c) eqn:E.
  - apply Nat.eqb_eq in E. subst c. exfalso. apply N. now left.
  - cbn [negb]. f_equal. apply IH. intros H. apply N. now right.
Qed.

Lemma healthy_after_call (w : world) : healthy w -> healthy (after_call w).
Proof. intros [Hc Hq]. split; assumption. Qed.

Lemma call_connect_failure (r : report) (s e : Py.value) (w : world) (x : exn) :
  connect_failure w = Some x -> call r s e w = (Raised x, w).
Proof.
  intros Hc. destruct r; unfold call, get_final_stats, get_restaurant_stats,
    get_delivery_stats, bind, get_db_connection; rewrite Hc; reflexivity.
Qed.

Lemma call_query_failure (r : report) (s e : Py.value) (w : world) (x : exn) :
  connect_failure w = None -> query_failure w = Some x ->
  call r s e w
  = (Raised x,
     mkworld (db w) None (Some x) (S (next_connection w))
       (next_connection w :: open_connections w)).
Proof.
  intros Hc Hq. destruct r; unfold call, get_final_stats, get_restaurant_stats,
    get_delivery_stats, bind, get_db_connection, read_sql, is_open;
    rewrite Hc; cbn [open_connections existsb query_failure db connect_failure
                     next_connection];
    rewrite Nat.eqb_refl; cbn [orb]; rewrite Hq; reflexivity.
Qed.

(** The result of a call on a healthy server, cell by cell. *)
Lemma result_cells (r : report) (s e : Py.value) (w : world) :
  healthy w ->
  fst (call r s e w)
  = Returned
      match r with
      | Overall =>
          mkframe overall_columns
            [[CInt (COUNT (filter (where_holds (st_where (query_of r s e)))
                             (orders (db w))));
              CFloat (round2 (total order_amount
                                (filter (where_holds (st_where (query_of r s e)))
                                   (orders (db w)))));
              CFloat (round2 (total net_revenue
                                (filter (where_holds (st_where (query_of r s e)))
                                   (orders (db w)))));
              CFloat (round2 (total delivery_charge
                                (filter (where_holds (st_where (query_of r s e)))
                                   (orders (db w)))));
              CFloat (round2 (total additional_charge
                                (filter (where_holds (st_where (query_of r s e)))
                                   (orders (db w)))))]]
      | PerRestaurant =>
          mkframe restaurant_columns
            (map (fun g =>
                    [CStr (snd (fst g)); CInt (COUNT (snd g));
                     CFloat (round2 (total order_amount (snd g)));
                     CFloat (round2 (total delivery_charge (snd g)));
                     CFloat (round2 (total additional_charge (snd g)));
                     CFloat (round2 (total net_revenue (snd g)))])
               (ORDER_BY_DESC (fun g => total net_revenue (snd g))
                  (groups store_id s_id s_name (st_where (query_of r s e))
                     (orders (db w)) (stores (db w)))))
      | PerCourier =>
          mkframe courier_columns
            (map (fun g =>
                    [CStr (snd (fst g)); CInt (COUNT (snd g));
                     CFloat (round2 (total order_amount (snd g)));
                     CFloat (round2 (total delivery_charge (snd g)))])
               (ORDER_BY_DESC (fun g => total order_amount (snd g))
                  (groups delivery_man_id dm_id l_name (st_where (query_of r s e))
                     (orders (db w)) (delivery_men (db w)))))
      end.
Proof.
  intros H. rewrite (result_frame r s e H), exec_cells, (proj2 (query_where r s e)).
  destruct r; cbn [columns rows map round_cell].
  - unfold overall_row. now rewrite !COALESCE_SUM.
  - now rewrite map_map.
  - now rewrite map_map.
Qed.

Lemma where_selected (r : report) (s e : Py.value) (o : order) :
  well_formed s = true -> well_formed e = true ->
  where_holds (st_where (query_of r s e)) o = selected s e o.
Proof. intros Hs He. now rewrite where_query. Qed.

Lemma filter_where_selected (r : report) (s e : Py.value) (os : list order) :
  well_formed s = true -> well_formed e = true ->
  filter (where_holds (st_where (query_of r s e))) os = filter (selected s e) os.
Proof.
  intros Hs He. apply filter_ext. intros o. now apply where_selected.
Qed.

(** Dates: [<=] both ways is equality. *)
Lemma date_leb_both (a b : Py.date) :
  Py.date_leb a b && Py.date_leb b a = Py.date_eqb b a.
Proof.
  apply eq_true_iff_eq.
  unfold Py.date_leb, Py.date_eqb. destruct a as [ya ma da], b as [yb mb db'].
  cbn [Py.year Py.month Py.day].
  rewrite !andb_true_iff, !orb_true_iff, !andb_true_iff, !orb_true_iff,
    !andb_true_iff, !Nat.ltb_lt, !Nat.eqb_eq, !Nat.leb_le.
  lia.
Qed.

Lemma filter_length_le {A} (p q : A -> bool) (l : list A) :
  (forall x, In x l -> p x = true -> q x = true) ->
  (List.length (filter p l) <= List.length (filter q l))%nat.
Proof.
  induction l as [|x l IH]; intros H; [ apply Nat.le_refl | ].
  cbn [filter].
  assert (IH' : (List.length (filter p l) <= List.length (filter q l))%nat).
  { apply IH. intros y Hy. apply H. now right. }
  destruct (p x) eqn:P.
  - rewrite (H x (or_introl eq_refl) P). cbn [List.length]. lia.
  - destruct (q x); cbn [List.length]; lia.
Qed.

Lemma COUNT_nonempty {A} (l : list A) : l <> [] -> (1 <= COUNT l)%Z.
Proof.
  unfold COUNT. destruct l; [ congruence | cbn [List.length]; lia ].
Qed.

(** Characters of the text of a date argument. *)
Lemma plain_char_digit (n : nat) : plain_char (Py.digit n) = true.
Proof.
  unfold plain_char, Py.digit.
  assert (Hlt : (n mod 10 < 10)%nat) by (apply Nat.mod_upper_bound; discriminate).
  rewrite nat_ascii_embedding by lia.
  replace ((48 <=? 48 + n mod 10)%nat && (48 + n mod 10 <=? 57)%nat) with true;
    [ reflexivity | ].
  symmetry. apply andb_true_iff. split; apply Nat.leb_le; lia.
Qed.

Lemma plain_char_no_quote (c : ascii) :
  plain_char c = true -> Ascii.eqb c "'" = false.
Proof.
  intros P. destruct (Ascii.eqb c "'") eqn:E; [ | reflexivity ].
  apply Ascii.eqb_eq in E. subst c. discriminate P.
Qed.

Lemma count_quotes_append (a b : string) :
  count_quotes (a ++ b) = (count_quotes a + count_quotes b)%nat.
Proof.
  induction a as [|c a IH]; cbn [String.append count_quotes]; [ reflexivity | ].
  rewrite IH. lia.
Qed.

Lemma count_quotes_str (v : Py.value) : count_quotes (Py.str v) = 0%nat.
Proof.
  destruct v as [| |d]; [ reflexivity | reflexivity | ].
  unfold Py.str, Py.isoformat, Py.pad4, Py.pad2.
  cbn [String.append count_quotes].
  rewrite !(@plain_char_no_quote _ (plain_char_digit _)). reflexivity.
Qed.

End CallMore.

(** ** Further facts: sizes and keys of the groups *)

Module GroupFacts.
Import Db Sql Pandas Engine App Spec Derived.
Import EngineFacts.
Local Open Scope nat_scope.

Lemma key_eqb_eq (a b : key) : key_eqb a b = true <-> a = b.
Proof.
  unfold key_eqb. destruct a as [i n], b as [j m]. cbn [fst snd].
  rewrite andb_true_iff, Z.eqb_eq, String.eqb_eq.
  split; [ intros [-> ->]; reflexivity | intros [= -> ->]; now split ].
Qed.

(** GROUP BY neither loses nor repeats a row. *)
Lemma add_to_group_sizes {A} (k : key) (x : A) (gs : list (key * list A)) :
  group_sizes (add_to_group k x gs) = S (group_sizes gs).
Proof.
  unfold group_sizes, list_sum. induction gs as [|[k' xs] gs IH]; cbn.
  - reflexivity.
  - destruct (key_eqb k' k); cbn.
    + rewrite length_app. cbn. lia.
    + rewrite IH. lia.
Qed.

Lemma GROUP_BY_sizes {A} (kf : A -> key) (l : list A) :
  group_sizes (GROUP_BY kf l) = List.length l.
Proof.
  unfold GROUP_BY.
  assert (G : forall gs,
            group_sizes (fold_left (fun gs x => add_to_group (kf x) x gs) l gs)
            = List.length l + group_sizes gs).
  { induction l as [|x l IH]; intros gs; cbn [fold_left List.length].
    - reflexivity.
    - rewrite IH, add_to_group_sizes. lia. }
  rewrite G. unfold group_sizes. cbn. lia.
Qed.

Lemma insert_desc_sizes {A} (f : key * list A -> Q) (x : key * list A)
    (l : list (key * list A)) :
  group_sizes (insert_desc f x l) = List.length (snd x) + group_sizes l.
Proof.
  unfold group_sizes, list_sum. induction l as [|y l IH]; cbn.
  - reflexivity.
  - destruct (Qle_bool (f y) (f x)); cbn; [ reflexivity | rewrite IH; lia ].
Qed.

(** ORDER BY neither loses nor repeats a group. *)
Lemma ORDER_BY_DESC_sizes {A} (f : key * list A -> Q) (l : list (key * list A)) :
  group_sizes (ORDER_BY_DESC f l) = group_sizes l.
Proof.
  unfold ORDER_BY_DESC. induction l as [|x l IH]; cbn [fold_right].
  - reflexivity.
  - rewrite insert_desc_sizes, IH. reflexivity.
Qed.

Lemma groups_sizes {T} (fk : order -> option Z) (pk : T -> Z) (name : T -> string)
    (cs : list condition) (os : list order) (ts : list T) :
  group_sizes (groups fk pk name cs os ts)
  = List.length (JOIN fk pk (filter (where_holds cs) os) ts).
Proof.
  unfold groups. rewrite filter_JOIN, <- GROUP_BY_sizes
    with (kf := fun ot : order * T => (pk (snd ot), name (snd ot))).
  unfold group_sizes. rewrite map_map. f_equal. apply map_ext.
  intros [k xs]. cbn [snd]. apply length_map.
Qed.

(** The rows of the joined table an order points to. *)
Lemma matches_at_most_one {T} (pk : T -> Z) (ts : list T) (i : Z) :
  unique_ids pk ts ->
  List.length (filter (fun t => Z.eqb i (pk t)) ts) <= 1.
Proof.
  unfold unique_ids. induction ts as [|t ts IH]; cbn [map filter]; intros U.
  - cbn. lia.
  - inversion U as [|? ? Hn U']; subst.
    destruct (Z.eqb i (pk t)) eqn:E.
    + apply Z.eqb_eq in E. subst i. cbn [List.length].
      replace (filter (fun t0 => Z.eqb (pk t) (pk t0)) ts) with (@nil T);
        [ cbn; lia | ].
      symmetry. apply ResultFacts.filter_none. intros t' Ht'.
      apply Z.eqb_neq. intros E. apply Hn. rewrite E. now apply in_map.
    + now apply IH.
Qed.

Lemma matches_at_least_one {T} (pk : T -> Z) (ts : list T) (t : T) :
  In t ts -> 1 <= List.length (filter (fun t' => Z.eqb (pk t) (pk t')) ts).
Proof.
  intros H.
  assert (I : In t (filter (fun t' => Z.eqb (pk t) (pk t')) ts)).
  { apply filter_In. split; [ exact H | apply Z.eqb_refl ]. }
  destruct (filter (fun t' => Z.eqb (pk t) (pk t')) ts); [ destruct I | cbn; lia ].
Qed.

Lemma JOIN_length_le {T} (fk : order -> option Z) (pk : T -> Z)
    (os : list order) (ts : list T) :
  unique_ids pk ts -> List.length (JOIN fk pk os ts) <= List.length os.
Proof.
  intros U. unfold JOIN. induction os as [|o os IH]; cbn [flat_map List.length].
  - lia.
  - rewrite length_app, length_map.
    assert (List.length (filter (fun t => match fk o with
                                           | Some i => Z.eqb i (pk t)
                                           | None => false
                                           end) ts) <= 1).
    { destruct (fk o) as [i|]; [ now apply matches_at_most_one | ].
      rewrite (ResultFacts.filter_none (fun _ : T => false)); [ cbn; lia | reflexivity ]. }
    lia.
Qed.

Lemma JOIN_length_eq {T} (fk : order -> option Z) (pk : T -> Z)
    (os : list order) (ts : list T) :
  unique_ids pk ts ->
  (forall o, In o os -> references fk pk ts o) ->
  List.length (JOIN fk pk os ts) = List.length os.
Proof.
  intros U R. unfold JOIN. induction os as [|o os IH]; cbn [flat_map List.length].
  - reflexivity.
  - rewrite length_app, length_map, IH by (intros o' Ho'; apply R; now right).
    destruct (R o (or_introl eq_refl)) as (t & Ht & E). rewrite E.
    pose proof (matches_at_most_one (pk t) U).
    pose proof (matches_at_least_one pk ts t Ht).
    lia.
Qed.

Lemma JOIN_In {T} (fk : order -> option Z) (pk : T -> Z)
    (os : list order) (ts : list T) (o : order) (t : T) :
  In (o, t) (JOIN fk pk os ts) <-> In o os /\ In t ts /\ fk o = Some (pk t).
Proof.
  unfold JOIN. rewrite in_flat_map. split.
  - intros (o' & Ho' & H). apply in_map_iff in H. destruct H as (t' & [= <- <-] & H).
    apply filter_In in H. destruct H as [Ht M].
    destruct (fk o') as [i|]; [ | discriminate ].
    apply Z.eqb_eq in M. subst i. now repeat split.
  - intros (Ho & Ht & E). exists o. split; [ exact Ho | ].
    apply in_map_iff. exists t. split; [ reflexivity | ].
    apply filter_In. split; [ exact Ht | ]. rewrite E. apply Z.eqb_refl.
Qed.

(** The keys of the groups are the keys of the rows. *)
Lemma add_to_group_keys {A} (k k' : key) (x : A) (gs : list (key * list A)) :
  In k' (map fst (add_to_group k x gs)) <-> k' = k \/ In k' (map fst gs).
Proof.
  induction gs as [|[k0 xs] gs IH]; cbn.
  - intuition.
  - destruct (key_eqb k0 k) eqn:E; cbn.
    + apply key_eqb_eq in E. subst k0. intuition.
    + rewrite IH. intuition.
Qed.

Lemma GROUP_BY_keys {A} (kf : A -> key) (l : list A) (k : key) :
  In k (map fst (GROUP_BY kf l)) <-> exists x, In x l /\ kf x = k.
Proof.
  unfold GROUP_BY.
  assert (G : forall gs,
            In k (map fst (fold_left (fun gs x => add_to_group (kf x) x gs) l gs))
            <-> (exists x, In x l /\ kf x = k) \/ In k (map fst gs)).
  { induction l as [|x l IH]; intros gs; cbn [fold_left].
    - split; [ now right | intros [(x & [] & _) | H]; exact H ].
    - rewrite IH, add_to_group_keys. split.
      + intros [(y & Hy & E) | [-> | H]].
        * left. exists y. split; [ now right | exact E ].
        * left. exists x. split; [ now left | reflexivity ].
        * now right.
      + intros [(y & [<- | Hy] & E) | H].
        * right. left. now symmetry.
        * left. now exists y.
        * right. now right. }
  rewrite G. cbn. intuition.
Qed.

Lemma groups_keys {T} (fk : order -> option Z) (pk : T -> Z) (name : T -> string)
    (cs : list condition) (os : list order) (ts : list T) (k : key) :
  In k (map fst (groups fk pk name cs os ts))
  <-> exists o t, In o os /\ In t ts /\ where_holds cs o = true
                  /\ fk o = Some (pk t) /\ k = (pk t, name t).
Proof.
  unfold groups. rewrite map_map. cbn [fst].
  change (map (fun x : key * list (order * T) => fst x)) with (map (@fst key (list (order * T)))).
  rewrite GROUP_BY_keys. split.
  - intros ([o t] & H & E). apply filter_In in H. destruct H as [H W].
    apply JOIN_In in H. destruct H as (Ho & Ht & F). cbn [fst snd] in *.
    exists o, t. repeat split; try assumption. now symmetry.
  - intros (o & t & Ho & Ht & W & F & ->). exists (o, t). split; [ | reflexivity ].
    apply filter_In. split; [ now apply JOIN_In | exact W ].
Qed.

Lemma sum_counts_of_groups {A} (gs : list (key * list A))
    (rowf : key * list A -> list cell) (i : nat) :
  (forall g, nth i (rowf g) CNaN = CInt (COUNT (snd g))) ->
  sum_counts (map (fun g => nth i (rowf g) CNaN) gs) = Z.of_nat (group_sizes gs).
Proof.
  intros H. unfold group_sizes, list_sum.
  induction gs as [|g gs IH]; cbn [map fold_right sum_counts].
  - reflexivity.
  - rewrite H. fold (sum_counts (map (fun g => nth i (rowf g) CNaN) gs)).
    rewrite IH. unfold COUNT. lia.
Qed.

End GroupFacts.

(** ** Further facts: the run of the page *)

Module PageFacts.
Import Db Sql Pandas Engine App Spec Derived.
Import EngineFacts FrameFacts DateFacts CallFacts RoundFacts ResultFacts.
Import CallMore.
Local Open Scope string_scope.

Lemma bind_step {A B} (m : IO A) (k : A -> IO B) (w w' : world) (a : A) :
  m w = (Returned a, w') -> bind m k w = k a w'.
Proof. intros E. unfold bind. now rewrite E. Qed.

Lemma bind_raised {A B} (m : IO A) (k : A -> IO B) (w w' : world) (x : exn) :
  m w = (Raised x, w') -> bind m k w = (Raised x, w').
Proof. intros E. unfold bind. now rewrite E. Qed.

Ltac in_page :=
  match goal with
  | |- In _ (_ :: _) => first [ left; reflexivity | right; in_page ]
  | |- In _ (_ ++ _)%list =>
      apply in_or_app; first [ left; in_page | right; in_page ]
  end.

Lemma iloc0_first_row (col : string) (cols : list string) (row : list cell)
    (rest : list (list cell)) (i : nat) (w : world) :
  position col cols = Some i ->
  iloc0 col (mkframe cols (row :: rest)) w = (Returned (nth i row CNaN), w).
Proof.
  intros P. unfold iloc0, column. cbn [columns rows]. rewrite P. reflexivity.
Qed.

(** The frame a call returns, cell by cell. *)
Lemma overall_frame_cells (s e : Py.value) (d : database) :
  round_monetary (monetary_columns Overall) (exec d (final_query s e))
  = mkframe overall_columns
      [[CInt (COUNT (filter (where_holds (st_where (final_query s e))) (orders d)));
        CFloat (round2 (total order_amount
                          (filter (where_holds (st_where (final_query s e)))
                             (orders d))));
        CFloat (round2 (total net_revenue
                          (filter (where_holds (st_where (final_query s e)))
                             (orders d))));
        CFloat (round2 (total delivery_charge
                          (filter (where_holds (st_where (final_query s e)))
                             (orders d))));
        CFloat (round2 (total additional_charge
                          (filter (where_holds (st_where (final_query s e)))
                             (orders d))))]].
Proof.
  change (monetary_columns Overall)
    with (monetary_columns (st_report (final_query s e))).
  rewrite rounded_exec, exec_cells. cbn [final_query st_report columns rows map].
  unfold overall_row. cbn [map round_cell]. now rewrite !COALESCE_SUM.
Qed.

Lemma get_final_stats_healthy (s e : Py.value) (w : world) :
  healthy w ->
  get_final_stats s e w
  = (Returned
       (mkframe overall_columns
          [[CInt (COUNT (filter (where_holds (st_where (final_query s e)))
                           (orders (db w))));
            CFloat (round2 (total order_amount
                              (filter (where_holds (st_where (final_query s e)))
                                 (orders (db w)))));
            CFloat (round2 (total net_revenue
                              (filter (where_holds (st_where (final_query s e)))
                                 (orders (db w)))));
            CFloat (round2 (total delivery_charge
                              (filter (where_holds (st_where (final_query s e)))
                                 (orders (db w)))));
            CFloat (round2 (total additional_charge
                              (filter (where_holds (st_where (final_query s e)))
                                 (orders (db w)))))]]),
     after_call w).
Proof.
  intros H. change get_final_stats with (call Overall).
  rewrite (call_healthy Overall s e H). cbn [query_of].
  now rewrite overall_frame_cells.
Qed.

Lemma is_zero_count {A} (l : list A) :
  is_zero (CInt (COUNT l)) = match l with [] => true | _ :: _ => false end.
Proof. destruct l; reflexivity. Qed.

(** The page when the overall count is 0: one query, then the warning. *)
Lemma main_no_orders (to_excel : DataFrame -> list Byte.byte) (u : ui) (w : world) :
  healthy w ->
  filter (where_holds (st_where (final_query (fst (selection u)) (snd (selection u)))))
    (orders (db w)) = [] ->
  main to_excel u w
  = (Returned
       (page_top u
        ++ [Header "Overall Statistics";
            Warning ("No orders found "
                     ++ get_date_range_text (fst (selection u)) (snd (selection u)))])%list,
     after_call w).
Proof.
  intros H N. unfold main. cbv zeta.
  rewrite (@bind_step _ _ _ _ _ _ _ (get_final_stats_healthy _ _ H)).
  rewrite (@bind_step _ _ _ _ _ _ _ (@iloc0_first_row "total_orders" overall_columns _ _ 0 _ eq_refl)).
  cbn [nth]. rewrite N. reflexivity.
Qed.

(** The page when there are orders: three queries one after the other. *)
Lemma main_with_orders (to_excel : DataFrame -> list Byte.byte) (u : ui) (w : world) :
  healthy w ->
  filter (where_holds (st_where (final_query (fst (selection u)) (snd (selection u)))))
    (orders (db w)) <> [] ->
  exists page,
    main to_excel u w
    = (Returned page, after_call (after_call (after_call w)))
    /\ In (Metric "Total Orders"
             (CInt (COUNT (filter
                             (where_holds
                                (st_where (final_query (fst (selection u))
                                             (snd (selection u)))))
                             (orders (db w)))))) page
    /\ (forall r df,
          (r = PerRestaurant \/ r = PerCourier) ->
          fst (call r (fst (selection u)) (snd (selection u)) w) = Returned df ->
          if empty df
          then In (Warning
                     ((if report_eqb r PerRestaurant
                       then "No restaurant orders found "
                       else "No delivery orders found ")
                      ++ get_date_range_text (fst (selection u))
                           (snd (selection u)))) page
          else In (Table df) page).
Proof.
  intros H N. unfold main. cbv zeta.
  rewrite (@bind_step _ _ _ _ _ _ _ (get_final_stats_healthy _ _ H)).
  rewrite (@bind_step _ _ _ _ _ _ _ (@iloc0_first_row "total_orders" overall_columns _ _ 0 _ eq_refl)).
  cbn [nth]. rewrite is_zero_count.
  destruct (filter _ (orders (db w))) as [|o os] eqn:E; [ congruence | ].
  rewrite (@bind_step _ _ _ _ _ _ _ (@iloc0_first_row "total_order_amount" overall_columns _ _ 1 _ eq_refl)).
  rewrite (@bind_step _ _ _ _ _ _ _ (@iloc0_first_row "total_restaurant_revenue" overall_columns _ _ 2 _ eq_refl)).
  rewrite (@bind_step _ _ _ _ _ _ _ (@iloc0_first_row "total_delivery_charge" overall_columns _ _ 3 _ eq_refl)).
  rewrite (@bind_step _ _ _ _ _ _ _ (@iloc0_first_row "total_additional_charge" overall_columns _ _ 4 _ eq_refl)).
  change get_restaurant_stats with (call PerRestaurant).
  rewrite (@bind_step _ _ _ _ _ _ _ (call_healthy PerRestaurant _ _ (healthy_after_call H))).
  change get_delivery_stats with (call PerCourier).
  rewrite (@bind_step _ _ _ _ _ _ _ (call_healthy PerCourier _ _
                          (healthy_after_call (healthy_after_call H)))).
  unfold ret. eexists. split; [ reflexivity | ].
  rewrite <- E. split; [ in_page | ].
  intros r df [-> | ->] Er; rewrite (call_healthy _ _ _ H) in Er;
    cbn [fst] in Er; injection Er as <-; cbn [report_eqb after_call db].
  - destruct (empty _); in_page.
  - destruct (empty _); in_page.
Qed.

(** Handles are given out in increasing order; a call that returns keeps
    that and leaves the open ones as they were. *)
Lemma after_call_connections (w : world) :
  Forall (fun c => c < next_connection w)%nat (open_connections w) ->
  open_connections (after_call w) = open_connections w
  /\ Forall (fun c => c < next_connection (after_call w))%nat
       (open_connections (after_call w)).
Proof.
  intros F. unfold after_call. cbn [open_connections next_connection].
  assert (E : filter (fun c => negb (Nat.eqb (next_connection w) c))
                (open_connections w) = open_connections w).
  { apply filter_other_handles. intros I. rewrite Forall_forall in F.
    specialize (F _ I). lia. }
  rewrite E. split; [ reflexivity | ].
  eapply Forall_impl; [ | exact F ]. cbv beta. intros c Hc. lia.
Qed.

Lemma clicked_one_button (u : ui) (a b : string) :
  clicked u a = true -> clicked u b = true -> a = b.
Proof.
  unfold clicked. destruct (pressed u) as [l|]; [ | discriminate ].
  intros Ea Eb. apply String.eqb_eq in Ea, Eb. congruence.
Qed.

Lemma main_connect_failure (to_excel : DataFrame -> list Byte.byte) (u : ui)
    (w : world) (x : exn) :
  connect_failure w = Some x -> main to_excel u w = (Raised x, w).
Proof.
  intros Hc. unfold main. cbv zeta.
  change get_final_stats with (call Overall).
  now rewrite (@bind_raised _ _ _ _ _ _ _ (call_connect_failure Overall _ _ w Hc)).
Qed.

Lemma main_query_failure (to_excel : DataFrame -> list Byte.byte) (u : ui)
    (w : world) (x : exn) :
  connect_failure w = None -> query_failure w = Some x ->
  main to_excel u w
  = (Raised x,
     mkworld (db w) None (Some x) (S (next_connection w))
       (next_connection w :: open_connections w)).
Proof.
  intros Hc Hq. unfold main. cbv zeta.
  change get_final_stats with (call Overall).
  now rewrite (@bind_raised _ _ _ _ _ _ _ (call_query_failure Overall _ _ w Hc Hq)).
Qed.

End PageFacts.

(** ** The script and the page it returns *)

Module ScriptFacts.
Import Db Sql Pandas Engine App Spec Derived Script.
Local Open Scope string_scope.

(** [App.main] is the script seen from a run that returns: same outcome,
    same world, and the page is the screen at the end. *)
Lemma main_is_the_script (to_excel : DataFrame -> list Byte.byte) (u : ui)
    (w : world) :
  main to_excel u w
  = match main_script to_excel u [] w with
    | (Returned _, scr, w') => (Returned scr, w')
    | (Raised x, _, w') => (Raised x, w')
    end.
Proof.
  unfold main, main_script, selection, button, and_then, draw, done, perform,
    bind, iloc0, raise, ret.
  destruct (clicked u "Get Today's Stats"); cbn beta iota; cbn [fst snd app];
    repeat (match goal with
            | |- context [match column ?c ?d with _ => _ end] =>
                destruct (column c d) as [[|? ?]|]
            | |- context [if ?c then _ else _] => destruct c
            | |- context [match ?m ?w0 with _ => _ end] =>
                match type of (m w0) with
                | (outcome _ * world)%type =>
                    match m with
                    | pair _ => fail 1
                    | _ => destruct (m w0) as [[?|?] ?]
                    end
                end
            end; cbn beta iota; cbn [fst snd app]);
    reflexivity.
Qed.

(** A failure of the first statement finds the top of the page and the
    first header drawn. *)
Lemma script_raises_at_first_call (to_excel : DataFrame -> list Byte.byte)
    (u : ui) (w w' : world) (x : exn) :
  get_final_stats (fst (selection u)) (snd (selection u)) w = (Raised x, w') ->
  main_script to_excel u [] w
  = (Raised x, (page_top u ++ [Header "Overall Statistics"])%list, w').
Proof.
  unfold main_script, selection, page_top, button, and_then, draw, done, perform.
  destruct (clicked u "Get Today's Stats"); cbn beta iota; cbn [fst snd app];
    intros E; rewrite E; reflexivity.
Qed.

End ScriptFacts.

(** ** The statements against the reports in words *)

Module PolicyFacts.
Import Db Sql Pandas Engine App Spec Derived Policy.
Import EngineFacts CallFacts ResultFacts CallMore GroupFacts.
Local Open Scope string_scope.

Lemma total_sum_of (f : order -> Q) (os : list order) : total f os = sum_of f os.
Proof.
  unfold total, sum_of. induction os as [|o os IH]; cbn [fold_right map].
  - reflexivity.
  - now rewrite IH.
Qed.

Lemma total_net (os : list order) : total net_revenue os = sum_of net os.
Proof. apply total_sum_of. Qed.

(** GROUP BY, exactly: the keys are pairwise different and each group is
    the rows with its key, in input order. *)
Lemma add_to_group_NoDup {A} (k : key) (x : A) (gs : list (key * list A)) :
  NoDup (map fst gs) -> NoDup (map fst (add_to_group k x gs)).
Proof.
  induction gs as [|[k' xs] gs IH]; cbn [add_to_group map fst]; intros N.
  - constructor; [ intros [] | constructor ].
  - inversion N as [|? ? Hn N']; subst.
    destruct (key_eqb k' k) eqn:E; cbn [map fst].
    + exact N.
    + constructor; [ | now apply IH ].
      rewrite add_to_group_keys. intros [-> | H]; [ | now apply Hn ].
      assert (T : key_eqb k k = true) by now apply key_eqb_eq.
      congruence.
Qed.

Lemma add_to_group_In {A} (k k' : key) (x : A) (ys : list A)
    (gs : list (key * list A)) :
  NoDup (map fst gs) ->
  In (k', ys) (add_to_group k x gs) ->
  (k' = k /\ ((ys = [x] /\ ~ In k (map fst gs))
              \/ exists xs, In (k, xs) gs /\ ys = (xs ++ [x])%list))
  \/ (k' <> k /\ In (k', ys) gs).
Proof.
  induction gs as [|[k0 xs] gs IH]; cbn [add_to_group map fst In]; intros N H.
  - destruct H as [[= <- <-] | []]. left. split; [ reflexivity | ].
    left. split; [ reflexivity | intros [] ].
  - inversion N as [|? ? Hn N']; subst.
    destruct (key_eqb k0 k) eqn:E.
    + apply key_eqb_eq in E. subst k0. destruct H as [[= <- <-] | H].
      * left. split; [ reflexivity | ]. right. exists xs. split; [ now left | reflexivity ].
      * right. split; [ | now right ].
        intros ->. apply Hn. change k with (fst (k, ys)). now apply in_map.
    + destruct H as [[= <- <-] | H].
      * right. split; [ | now left ].
        intros ->. assert (T : key_eqb k k = true) by now apply key_eqb_eq.
        congruence.
      * destruct (IH N' H) as [[-> [[-> Hk] | (zs & Hz & ->)]] | [Hk Hi]].
        -- left. split; [ reflexivity | ]. left. split; [ reflexivity | ].
           intros [<- | I]; [ | now apply Hk ].
           assert (T : key_eqb k0 k0 = true) by now apply key_eqb_eq.
           congruence.
        -- left. split; [ reflexivity | ]. right. exists zs.
           split; [ now right | reflexivity ].
        -- right. split; [ exact Hk | now right ].
Qed.

Lemma GROUP_BY_snoc {A} (kf : A -> key) (l : list A) (x : A) :
  GROUP_BY kf (l ++ [x]) = add_to_group (kf x) x (GROUP_BY kf l).
Proof. unfold GROUP_BY. now rewrite fold_left_app. Qed.

Lemma GROUP_BY_NoDup {A} (kf : A -> key) (l : list A) :
  NoDup (map fst (GROUP_BY kf l)).
Proof.
  induction l as [|x l IH] using rev_ind.
  - constructor.
  - rewrite GROUP_BY_snoc. now apply add_to_group_NoDup.
Qed.

Lemma GROUP_BY_exact {A} (kf : A -> key) (l : list A) (k : key) (xs : list A) :
  In (k, xs) (GROUP_BY kf l) -> xs = filter (fun x => key_eqb (kf x) k) l.
Proof.
  revert k xs. induction l as [|x l IH] using rev_ind; intros k xs H.
  - destruct H.
  - rewrite GROUP_BY_snoc in H.
    apply add_to_group_In in H; [ | apply GROUP_BY_NoDup ].
    rewrite filter_app. cbn [filter].
    destruct H as [[-> [[-> Hk] | (zs & Hz & ->)]] | [Hk Hi]].
    + assert (T : key_eqb (kf x) (kf x) = true) by now apply key_eqb_eq.
      rewrite T.
      rewrite (filter_none (fun y => key_eqb (kf y) (kf x)) l); [ reflexivity | ].
      intros y Hy. destruct (key_eqb (kf y) (kf x)) eqn:E; [ | reflexivity ].
      exfalso. apply Hk. apply GROUP_BY_keys. exists y.
      split; [ exact Hy | now apply key_eqb_eq ].
    + assert (T : key_eqb (kf x) (kf x) = true) by now apply key_eqb_eq.
      rewrite T. now rewrite (IH _ _ Hz).
    + destruct (key_eqb (kf x) k) eqn:E.
      * apply key_eqb_eq in E. congruence.
      * rewrite app_nil_r. now apply IH.
Qed.

(** With unique primary keys, the joined rows of one key are the orders
    that point to it. *)
Lemma the_row_of_a_key {T} (pk : T -> Z) (ts : list T) (t : T) :
  unique_ids pk ts -> In t ts ->
  filter (fun t' => Z.eqb (pk t) (pk t')) ts = [t].
Proof.
  unfold unique_ids. induction ts as [|t0 ts IH]; cbn [map filter In]; intros U H.
  - destruct H.
  - inversion U as [|? ? Hn U']; subst. destruct H as [-> | H].
    + rewrite Z.eqb_refl. f_equal. apply filter_none. intros t' Ht'.
      apply Z.eqb_neq. intros E. apply Hn. rewrite E. now apply in_map.
    + destruct (Z.eqb (pk t) (pk t0)) eqn:E.
      * apply Z.eqb_eq in E. exfalso. apply Hn. rewrite <- E. now apply in_map.
      * now apply IH.
Qed.

Lemma same_key_same_row {T} (pk : T -> Z) (ts : list T) (t t' : T) :
  unique_ids pk ts -> In t ts -> In t' ts -> pk t = pk t' -> t = t'.
Proof.
  intros U H H' E.
  assert (I : In t' (filter (fun x => Z.eqb (pk t) (pk x)) ts)).
  { apply filter_In. split; [ exact H' | now apply Z.eqb_eq ]. }
  rewrite (@the_row_of_a_key T pk ts t U H) in I.
  destruct I as [I | []]. exact I.
Qed.

Lemma joined_of_row {T} (fk : order -> option Z) (pk : T -> Z)
    (name : T -> string) (ts : list T) (t : T) (os : list order) :
  unique_ids pk ts -> In t ts ->
  map fst (filter (fun ot : order * T =>
                     key_eqb (pk (snd ot), name (snd ot)) (pk t, name t))
             (JOIN fk pk os ts))
  = pointing_to fk (pk t) os.
Proof.
  intros U H. unfold JOIN, pointing_to.
  induction os as [|o os IH]; cbn [flat_map filter map]; [ reflexivity | ].
  rewrite filter_app, map_app, IH. clear IH.
  destruct (fk o) as [j|].
  - destruct (Z.eqb j (pk t)) eqn:E.
    + apply Z.eqb_eq in E. subst j. rewrite (@the_row_of_a_key T pk ts t U H).
      cbn [map filter fst snd].
      assert (K : key_eqb (pk t, name t) (pk t, name t) = true)
        by now apply key_eqb_eq.
      rewrite K. reflexivity.
    + rewrite filter_none; [ reflexivity | ].
      intros [o' t'] I. apply in_map_iff in I. destruct I as (t'' & [= <- <-] & I).
      apply filter_In in I. destruct I as [_ M]. apply Z.eqb_eq in M.
      cbn [snd]. destruct (key_eqb (pk t'', name t'') (pk t, name t)) eqn:K;
        [ | reflexivity ].
      apply key_eqb_eq in K. injection K as K _.
      apply Z.eqb_neq in E. congruence.
  - rewrite (filter_none (fun _ : T => false) ts) by reflexivity. reflexivity.
Qed.

Lemma choose_rows {T} (kf : T -> key) (ts : list T) (keys : list key) :
  (forall k, In k keys -> exists t, In t ts /\ kf t = k) ->
  exists ks, map kf ks = keys /\ forall t, In t ks -> In t ts.
Proof.
  induction keys as [|k keys IH]; intros H.
  - exists []. split; [ reflexivity | intros t [] ].
  - destruct (H k (or_introl eq_refl)) as (t & Ht & E).
    destruct IH as (ks & Eks & Hks); [ intros k' Hk'; apply H; now right | ].
    exists (t :: ks). split; [ cbn; now rewrite E, Eks | ].
    intros t' [<- | I]; [ exact Ht | now apply Hks ].
Qed.

Lemma groups_from_rows {T} (kf : T -> key) (P : T -> list order)
    (ts ks : list T) (gs : list (key * list order)) :
  map fst gs = map kf ks ->
  (forall t, In t ks -> In t ts) ->
  (forall g t, In g gs -> In t ts -> fst g = kf t -> snd g = P t) ->
  gs = map (fun t => (kf t, P t)) ks.
Proof.
  revert ks. induction gs as [|[k os] gs IH]; intros [|t ks] E Hks Hg;
    try discriminate; [ reflexivity | ].
  cbn [map fst] in E. injection E as Ek E. cbn [map]. f_equal.
  - f_equal; [ exact Ek | ].
    apply (Hg (k, os) t); [ now left | apply Hks; now left | exact Ek ].
  - apply IH; [ exact E | intros t' I; apply Hks; now right | ].
    intros g t' I. apply Hg. now right.
Qed.

Lemma pointing_to_In (fk : order -> option Z) (i : Z) (os : list order) (o : order) :
  In o (pointing_to fk i os) <-> In o os /\ fk o = Some i.
Proof.
  unfold pointing_to. rewrite filter_In. split; intros [H E]; split; try exact H.
  - destruct (fk o) as [j|]; [ | discriminate ]. apply Z.eqb_eq in E. now subst.
  - rewrite E. apply Z.eqb_refl.
Qed.

Lemma pointing_to_nonempty (fk : order -> option Z) (i : Z) (os : list order) :
  pointing_to fk i os <> [] <-> exists o, In o os /\ fk o = Some i.
Proof.
  split.
  - intros N. destruct (pointing_to fk i os) as [|o l] eqn:E; [ congruence | ].
    exists o. apply pointing_to_In. rewrite E. now left.
  - intros (o & H) E. apply pointing_to_In in H. rewrite E in H. destruct H.
Qed.

(** The groups of a statement, exactly. *)
Lemma groups_exact {T} (fk : order -> option Z) (pk : T -> Z) (name : T -> string)
    (cs : list condition) (os : list order) (ts : list T) :
  unique_ids pk ts ->
  exists ks : list T,
    NoDup ks
    /\ (forall t, In t ks
                  <-> In t ts /\ pointing_to fk (pk t) (filter (where_holds cs) os) <> [])
    /\ groups fk pk name cs os ts
       = map (fun t => ((pk t, name t),
                        pointing_to fk (pk t) (filter (where_holds cs) os))) ks.
Proof.
  intros U.
  set (kf := fun t : T => (pk t, name t)).
  destruct (@choose_rows T kf ts (map fst (groups fk pk name cs os ts)))
    as (ks & Eks & Hks).
  { intros k Hk. apply groups_keys in Hk.
    destruct Hk as (o & t & _ & Ht & _ & _ & ->). exists t. now split. }
  assert (N0 : NoDup (map fst (groups fk pk name cs os ts))).
  { unfold groups. rewrite map_map. cbn [fst].
    change (map (fun x : key * list (order * T) => fst x))
      with (map (@fst key (list (order * T)))).
    apply GROUP_BY_NoDup. }
  assert (N : NoDup (map kf ks)) by exact (eq_ind_r (@NoDup key) N0 Eks).
  clear N0.
  exists ks. split; [ | split ].
  - revert N. clear. induction ks as [|t ks IH]; cbn [map]; intros N.
    + constructor.
    + inversion N as [|? ? Hn N']; subst. constructor; [ | now apply IH ].
      intros I. apply Hn. now apply in_map.
  - intros t. split.
    + intros I. split; [ now apply Hks | ].
      assert (K : In (kf t) (map fst (groups fk pk name cs os ts)))
        by (rewrite <- Eks; now apply in_map).
      apply groups_keys in K.
      destruct K as (o & t' & Ho & Ht' & W & F & E).
      injection E as E _. apply pointing_to_nonempty. exists o.
      split; [ apply filter_In; now split | congruence ].
    + intros [Ht Hp]. apply pointing_to_nonempty in Hp.
      destruct Hp as (o & Ho & F). apply filter_In in Ho. destruct Ho as [Ho W].
      assert (K : In (kf t) (map fst (groups fk pk name cs os ts))).
      { apply groups_keys. exists o, t. now repeat split. }
      rewrite <- Eks in K. apply in_map_iff in K. destruct K as (t' & E & I).
      injection E as E _.
      now rewrite <- (@same_key_same_row T pk ts t' t U (Hks _ I) Ht E).
  - apply (@groups_from_rows T kf _ ts ks); [ now symmetry | exact Hks | ].
    intros g t Hg Ht E. unfold groups in Hg. apply in_map_iff in Hg.
    destruct Hg as ([k xs] & <- & Hg). cbn [fst snd] in *. subst k.
    apply GROUP_BY_exact in Hg. subst xs.
    rewrite filter_JOIN. now apply joined_of_row.
Qed.

Lemma insert_desc_map {A B} (f : B -> Q) (g : A -> B) (x : A) (l : list A) :
  insert_desc f (g x) (map g l) = map g (insert_desc (fun a => f (g a)) x l).
Proof.
  induction l as [|y l IH]; cbn [map insert_desc]; [ reflexivity | ].
  destruct (Qle_bool (f (g y)) (f (g x))); cbn [map]; [ reflexivity | ].
  now rewrite IH.
Qed.

Lemma ORDER_BY_DESC_map {A B} (f : B -> Q) (g : A -> B) (l : list A) :
  ORDER_BY_DESC f (map g l) = map g (ORDER_BY_DESC (fun a => f (g a)) l).
Proof.
  unfold ORDER_BY_DESC. induction l as [|x l IH]; cbn [map fold_right].
  - reflexivity.
  - now rewrite IH, insert_desc_map.
Qed.

Lemma insert_desc_NoDup {A} (f : A -> Q) (x : A) (l : list A) :
  ~ In x l -> NoDup l -> NoDup (insert_desc f x l).
Proof.
  induction l as [|y l IH]; cbn [insert_desc]; intros Hx N.
  - constructor; [ intros [] | constructor ].
  - destruct (Qle_bool (f y) (f x)).
    + now constructor.
    + inversion N as [|? ? Hy N']; subst. constructor.
      * rewrite insert_desc_In. intros [-> | I]; [ apply Hx; now left | now apply Hy ].
      * apply IH; [ intros I; apply Hx; now right | exact N' ].
Qed.

Lemma ORDER_BY_DESC_NoDup {A} (f : A -> Q) (l : list A) :
  NoDup l -> NoDup (ORDER_BY_DESC f l).
Proof.
  unfold ORDER_BY_DESC. induction l as [|x l IH]; cbn [fold_right]; intros N.
  - constructor.
  - inversion N as [|? ? Hx N']; subst. apply insert_desc_NoDup; [ | now apply IH ].
    intros I. apply Hx. fold (ORDER_BY_DESC f l) in I.
    now apply ORDER_BY_DESC_In in I.
Qed.

(** What a call returns is the report, in words, over the orders its
    WHERE clause keeps. *)
Lemma call_report (r : report) (s e : Py.value) (w : world) :
  healthy w -> joined_ids_unique r (db w) ->
  well_formed s = true -> well_formed e = true ->
  exists df,
    fst (call r s e w) = Returned df
    /\ report_over r (db w) (filter (selected s e) (orders (db w))) df.
Proof.
  intros H U Ws We. rewrite (result_cells r s e H).
  eexists. split; [ reflexivity | ].
  destruct r; cbn [report_over joined_ids_unique] in *.
  - rewrite (filter_where_selected Overall s e (orders (db w)) Ws We).
    unfold overall_over, overall_columns, COUNT, count_of.
    now rewrite !total_sum_of.
  - destruct (groups_exact store_id s_name
                (st_where (query_of PerRestaurant s e)) (orders (db w)) U)
      as (ks & N & I & ->).
    rewrite (filter_where_selected PerRestaurant s e (orders (db w)) Ws We) in *.
    rewrite ORDER_BY_DESC_map, map_map. cbn [fst snd].
    eexists. split; [ | split ]; [ | | unfold restaurant_columns; f_equal;
      apply map_ext; intros t; unfold restaurant_line, COUNT, count_of;
      rewrite !total_sum_of; reflexivity ].
    + now apply ORDER_BY_DESC_NoDup.
    + intros t. now rewrite ORDER_BY_DESC_In.
  - destruct (groups_exact delivery_man_id l_name
                (st_where (query_of PerCourier s e)) (orders (db w)) U)
      as (ks & N & I & ->).
    rewrite (filter_where_selected PerCourier s e (orders (db w)) Ws We) in *.
    rewrite ORDER_BY_DESC_map, map_map. cbn [fst snd].
    eexists. split; [ | split ]; [ | | unfold courier_columns; f_equal;
      apply map_ext; intros t; unfold courier_line, COUNT, count_of;
      rewrite !total_sum_of; reflexivity ].
    + now apply ORDER_BY_DESC_NoDup.
    + intros t. now rewrite ORDER_BY_DESC_In.
Qed.

End PolicyFacts.

(** ** The spreadsheet read back *)

Module XlsxFacts.
Import Pandas Xlsx.



End XlsxFacts.


(** * The claims *)

Module Claims.
Import Db Sql Pandas Engine App Spec Derived Policy Xlsx.
Import EngineFacts FrameFacts DateFacts CallFacts RoundFacts ResultFacts.
Import CallMore PolicyFacts XlsxFacts.

Local Open Scope string_scope.

(** C1: each of the three queries reports on the delivered orders whose
    creation date lies between start and end (inclusive) when both dates
    are given, on those created on the start date when only it is given,
    and on all delivered orders when no date is given: the result is the
    report, in words, over exactly those orders.  The ids of the joined
    table are its primary key. *)
Theorem date_filter_policy (r : report) (w : world) :
  healthy w -> joined_ids_unique r (db w) ->
  (forall a b, Py.valid a = true -> Py.valid b = true ->
     exists df,
       fst (call r (Py.VDate a) (Py.VDate b) w) = Returned df
       /\ report_over r (db w)
            (filter (fun o => delivered o
                              && (Py.date_leb a (DATE (created_at o))
                                  && Py.date_leb (DATE (created_at o)) b))
               (orders (db w)))
            df)
  /\ (forall a e, Py.valid a = true -> Py.truthy e = false ->
        exists df,
          fst (call r (Py.VDate a) e w) = Returned df
          /\ report_over r (db w)
               (filter (fun o => delivered o
                                 && Py.date_eqb (DATE (created_at o)) a)
                  (orders (db w)))
               df)
  /\ (forall s e, Py.truthy s = false -> Py.truthy e = false ->
        exists df,
          fst (call r s e w) = Returned df
          /\ report_over r (db w) (filter delivered (orders (db w))) df).
Proof.
  intros H U. repeat split.
  - intros a b Va Vb.
    exact (call_report r (Py.VDate a) (Py.VDate b) H U Va Vb).
  - intros a e Va Fe.
    assert (We : well_formed e = true)
      by (destruct e; [ reflexivity | reflexivity | discriminate ]).
    destruct (call_report r (Py.VDate a) e H U Va We) as (df & E & R).
    exists df. split; [ exact E | ].
    replace (filter (fun o => delivered o && Py.date_eqb (DATE (created_at o)) a)
               (orders (db w)))
      with (filter (selected (Py.VDate a) e) (orders (db w))); [ exact R | ].
    apply filter_ext. intros o. unfold selected.
    destruct e; [ reflexivity | reflexivity | discriminate ].
  - intros s e Fs Fe.
    assert (Ws : well_formed s = true)
      by (destruct s; [ reflexivity | reflexivity | discriminate ]).
    assert (We : well_formed e = true)
      by (destruct e; [ reflexivity | reflexivity | discriminate ]).
    destruct (call_report r s e H U Ws We) as (df & E & R).
    exists df. split; [ exact E | ].
    replace (filter delivered (orders (db w)))
      with (filter (selected s e) (orders (db w))); [ exact R | ].
    apply filter_ext. intros o. unfold selected.
    destruct s; [ | | discriminate ]; cbn [in_range]; apply andb_true_r.
Qed.

Lemma date_filter_policy_witness :
  healthy Sample.busy_server
  /\ joined_ids_unique PerRestaurant (db Sample.busy_server)
  /\ (exists df,
        fst (call PerRestaurant (Py.VDate Sample.day1) (Py.VDate Sample.day1)
               Sample.busy_server) = Returned df
        /\ report_over PerRestaurant (db Sample.busy_server)
             (filter (fun o => delivered o
                               && (Py.date_leb Sample.day1 (DATE (created_at o))
                                   && Py.date_leb (DATE (created_at o)) Sample.day1))
                (orders (db Sample.busy_server)))
             df)
  /\ (exists df,
        fst (call PerRestaurant (Py.VDate Sample.day2) Py.VNone
               Sample.busy_server) = Returned df
        /\ report_over PerRestaurant (db Sample.busy_server)
             (filter (fun o => delivered o
                               && Py.date_eqb (DATE (created_at o)) Sample.day2)
                (orders (db Sample.busy_server)))
             df)
  /\ (exists df,
        fst (call PerRestaurant Py.VNone Py.VNone Sample.busy_server) = Returned df
        /\ report_over PerRestaurant (db Sample.busy_server)
             (filter delivered (orders (db Sample.busy_server))) df).
Proof.
  assert (H : healthy Sample.busy_server) by (split; reflexivity).
  assert (U : joined_ids_unique PerRestaurant (db Sample.busy_server)).
  { cbn. repeat constructor; cbn; intuition discriminate. }
  split; [ exact H | ]. split; [ exact U | ].
  split; [ | split ].
  - exact (proj1 (date_filter_policy PerRestaurant H U)
             Sample.day1 Sample.day1 eq_refl eq_refl).
  - exact (proj1 (proj2 (date_filter_policy PerRestaurant H U))
             Sample.day2 Py.VNone eq_refl eq_refl).
  - exact (proj2 (proj2 (date_filter_policy PerRestaurant H U))
             Py.VNone Py.VNone eq_refl eq_refl).
Defined.

(** On the sample tables: the delivered order of the second day is left
    out by the range of the first day, and is the only one of its own
    day. *)
Example busy_first_day :
  fst (call PerRestaurant (Py.VDate Sample.day1) (Py.VDate Sample.day1)
         Sample.busy_server)
  = Returned (mkframe restaurant_columns
                [[CStr "Cafe X"; CInt 3; CFloat (35000 # 100); CFloat (3500 # 100);
                  CFloat (1000 # 100); CFloat (30500 # 100)]]).
Proof. vm_compute. reflexivity. Qed.

Example busy_second_day :
  fst (call PerRestaurant (Py.VDate Sample.day2) Py.VNone Sample.busy_server)
  = Returned (mkframe restaurant_columns
                [[CStr "Diner Y"; CInt 1; CFloat (80000 # 100); CFloat (6000 # 100);
                  CFloat (2000 # 100); CFloat (72000 # 100)]]).
Proof. vm_compute. reflexivity. Qed.

(** C2: when no order passes the filter of the date range, and so when the
    start date is strictly after the end date, the overall query returns one
    row with total_orders = 0 and the four sums equal to 0, the
    per-restaurant and per-courier queries return no rows, and none of the
    three raises. *)
Theorem empty_selection_results (s e : Py.value) (w : world) :
  healthy w -> well_formed s = true -> well_formed e = true ->
  (forall o, In o (orders (db w)) -> delivered o && in_range s e o = false)
  \/ (exists a b, s = Py.VDate a /\ e = Py.VDate b /\ Py.date_ltb b a = true) ->
  zero_overall (fst (get_final_stats s e w))
  /\ no_rows PerRestaurant (fst (get_restaurant_stats s e w))
  /\ no_rows PerCourier (fst (get_delivery_stats s e w)).
Proof.
  intros H Ws We N.
  assert (N' : forall o, In o (orders (db w)) ->
                 where_holds (st_where (final_query s e)) o = false).
  { intros o Ho. change (final_query s e) with (query_of Overall s e).
    rewrite (where_query Overall s e o Ws We).
    destruct N as [N | (a & b & -> & -> & L)]; [ now apply N | ].
    rewrite (reversed_range_empty _ _ o L). apply andb_false_r. }
  split; [ now apply overall_no_match | ].
  split.
  - apply (grouped_no_match (r:=PerRestaurant)); [ discriminate | exact H | exact N' ].
  - apply (grouped_no_match (r:=PerCourier)); [ discriminate | exact H | exact N' ].
Qed.

Lemma empty_selection_results_witness :
  healthy Sample.server
  /\ Py.date_ltb Sample.day1 Sample.day2 = true
  /\ zero_overall
       (fst (get_final_stats (Py.VDate Sample.day2) (Py.VDate Sample.day1)
               Sample.server))
  /\ no_rows PerRestaurant
       (fst (get_restaurant_stats (Py.VDate Sample.day2) (Py.VDate Sample.day1)
               Sample.server))
  /\ no_rows PerCourier
       (fst (get_delivery_stats (Py.VDate Sample.day2) (Py.VDate Sample.day1)
               Sample.server)).
Proof.
  assert (H : healthy Sample.server) by (split; reflexivity).
  split; [ exact H | ]. split; [ reflexivity | ].
  apply (@empty_selection_results (Py.VDate Sample.day2) (Py.VDate Sample.day1)
           Sample.server H eq_refl eq_refl).
  right. exists Sample.day2, Sample.day1. repeat split.
Defined.

(** C3: in the result of each query every cell of a monetary column is the
    value retrieved rounded to two decimals, so [round(x, 2) == x] holds for
    it; the other columns (names, counts), the column names and the number
    of rows are those retrieved. *)
Theorem monetary_columns_rounded (r : report) (s e : Py.value) (w : world) :
  healthy w ->
  exists df,
    fst (call r s e w) = Returned df
    /\ columns df = columns (exec (db w) (query_of r s e))
    /\ List.length (rows df) = List.length (rows (exec (db w) (query_of r s e)))
    /\ (forall col, In col (monetary_columns r) -> has_column col df = true)
    /\ (forall col cells,
          In col monetary_names -> column col df = Some cells ->
          Forall two_decimals cells
          /\ exists served,
               column col (exec (db w) (query_of r s e)) = Some served
               /\ cells = map round_cell served)
    /\ (forall col,
          ~ In col monetary_names ->
          column col df = column col (exec (db w) (query_of r s e))).
Proof.
  intros H. eexists. split; [ apply (result_frame r s e H) | ].
  split; [ reflexivity | ]. split; [ cbn [rows]; apply length_map | ].
  split.
  { intros col Hc. unfold has_column. cbn [columns].
    rewrite exec_cells, (proj2 (query_where r s e)).
    destruct r; cbn in Hc; name_cases Hc; subst col; reflexivity. }
  assert (X : exec (db w) (query_of r s e)
              = match r with
                | Overall =>
                    mkframe overall_columns
                      (map overall_row
                         [filter (where_holds (st_where (query_of r s e)))
                            (orders (db w))])
                | _ => exec (db w) (query_of r s e)
                end) by (destruct r; reflexivity).
  split.
  - intros col cells Hc. rewrite column_rounded.
    change (column col (mkframe (columns ?d) (rows ?d))) with (column col d).
    rewrite X. clear X. rewrite exec_cells, (proj2 (query_where r s e)).
    destruct r; cbn in Hc; name_cases Hc; subst col;
      rewrite column_of_rows; eval_position; cbn [option_map nth overall_row];
      intros C; try discriminate C; injection C as <-;
      (split; [ | eexists; split; reflexivity ]);
      cbn [map round_cell nth];
      first [ repeat constructor; apply two_decimals_round2
            | rewrite map_map; apply Forall_map, Forall_forall; intros g _;
              apply two_decimals_round2 ].
  - intros col N. rewrite column_rounded.
    change (column col (mkframe (columns ?d) (rows ?d))) with (column col d).
    rewrite X. clear X. rewrite exec_cells, (proj2 (query_where r s e)).
    destruct r; rewrite column_of_rows;
      unfold overall_columns, restaurant_columns, courier_columns;
      cbn [position];
      repeat match goal with
             | |- context [String.eqb col ?name] =>
                 destruct (String.eqb col name) eqn:?; try not_this_column col N
             end;
      cbn [option_map]; try reflexivity; f_equal; rewrite map_map; reflexivity.
Qed.

Lemma monetary_columns_rounded_witness :
  healthy Sample.fine_server
  /\ exists df,
       fst (call PerRestaurant Py.VNone Py.VNone Sample.fine_server) = Returned df
       /\ column "total_order_amount" df = Some [CFloat (10000 # 100)]
       /\ column "total_delivery_fee" df = Some [CFloat (1001 # 100)]
       /\ column "total_revenue" df = Some [CFloat (9000 # 100)]
       /\ Forall two_decimals [CFloat (10000 # 100)].
Proof.
  assert (H : healthy Sample.fine_server) by (split; reflexivity).
  split; [ exact H | ].
  destruct (monetary_columns_rounded PerRestaurant Py.VNone Py.VNone H)
    as (df & E & _ & _ & _ & M & _).
  exists df. split; [ exact E | ].
  assert (D : df = mkframe restaurant_columns
                     [[CStr "Cafe X"; CInt 1; CFloat (10000 # 100);
                       CFloat (1001 # 100); CFloat (0 # 100); CFloat (9000 # 100)]]).
  { assert (E' : Returned df
                 = Returned (mkframe restaurant_columns
                     [[CStr "Cafe X"; CInt 1; CFloat (10000 # 100);
                       CFloat (1001 # 100); CFloat (0 # 100); CFloat (9000 # 100)]]))
      by (rewrite <- E; vm_compute; reflexivity).
    now injection E'. }
  split; [ rewrite D; reflexivity | ].
  split; [ rewrite D; reflexivity | ].
  split; [ rewrite D; reflexivity | ].
  apply (M "total_order_amount" [CFloat (10000 # 100)]).
  - cbn. tauto.
  - rewrite D. reflexivity.
Defined.

Local Open Scope Q_scope.




Local Open Scope string_scope.

(** C5: the rows of the per-restaurant result never go up in total_revenue
    and the rows of the per-courier result never go up in
    total_order_amount, top to bottom. *)
Theorem results_ordered_descending (s e : Py.value) (w : world) :
  healthy w ->
  (exists df qs,
     fst (get_restaurant_stats s e w) = Returned df
     /\ column "total_revenue" df = Some (map CFloat qs)
     /\ List.length qs = List.length (rows df)
     /\ non_increasing qs)
  /\ (exists df qs,
        fst (get_delivery_stats s e w) = Returned df
        /\ column "total_order_amount" df = Some (map CFloat qs)
        /\ List.length qs = List.length (rows df)
        /\ non_increasing qs).
Proof.
  intros H. split.
  - exists (mkframe restaurant_columns
              (map (map round_cell)
                 (rows (exec (db w) (restaurant_query s e))))).
    exists (map (fun g => round2 (total net_revenue (snd g)))
              (ORDER_BY_DESC (fun g => total net_revenue (snd g))
                 (groups store_id s_id s_name
                    (st_where (restaurant_query s e)) (orders (db w))
                    (stores (db w))))).
    split; [ apply (result_frame PerRestaurant s e H) | ].
    rewrite exec_cells. cbn [restaurant_query st_report st_where rows].
    rewrite (map_map _ (map round_cell)), column_of_rows.
    eval_position. cbn [option_map nth map round_cell].
    split; [ now rewrite map_map | ].
    split; [ now rewrite !length_map | ].
    apply (@sorted_non_increasing _ (fun g => total net_revenue (snd g)) round2).
    + exact round2_monotone.
    + apply ORDER_BY_DESC_sorted.
  - exists (mkframe courier_columns
              (map (map round_cell)
                 (rows (exec (db w) (delivery_query s e))))).
    exists (map (fun g => round2 (total order_amount (snd g)))
              (ORDER_BY_DESC (fun g => total order_amount (snd g))
                 (groups delivery_man_id dm_id l_name
                    (st_where (delivery_query s e)) (orders (db w))
                    (delivery_men (db w))))).
    split; [ apply (result_frame PerCourier s e H) | ].
    rewrite exec_cells. cbn [delivery_query st_report st_where rows].
    rewrite (map_map _ (map round_cell)), column_of_rows.
    eval_position. cbn [option_map nth map round_cell].
    split; [ now rewrite map_map | ].
    split; [ now rewrite !length_map | ].
    apply (@sorted_non_increasing _ (fun g => total order_amount (snd g)) round2).
    + exact round2_monotone.
    + apply ORDER_BY_DESC_sorted.
Qed.

Lemma results_ordered_descending_witness :
  healthy Sample.busy_server
  /\ fst (get_restaurant_stats Py.VNone Py.VNone Sample.busy_server)
     = Returned
         (mkframe restaurant_columns
            [[CStr "Diner Y"; CInt 1; CFloat (80000 # 100); CFloat (6000 # 100);
              CFloat (2000 # 100); CFloat (72000 # 100)];
             [CStr "Cafe X"; CInt 3; CFloat (35000 # 100); CFloat (3500 # 100);
              CFloat (1000 # 100); CFloat (30500 # 100)]])
  /\ ((exists df qs,
         fst (get_restaurant_stats Py.VNone Py.VNone Sample.busy_server)
         = Returned df
         /\ column "total_revenue" df = Some (map CFloat qs)
         /\ List.length qs = List.length (rows df)
         /\ non_increasing qs)
      /\ (exists df qs,
            fst (get_delivery_stats Py.VNone Py.VNone Sample.busy_server)
            = Returned df
            /\ column "total_order_amount" df = Some (map CFloat qs)
            /\ List.length qs = List.length (rows df)
            /\ non_increasing qs)).
Proof.
  assert (H : healthy Sample.busy_server) by (split; reflexivity).
  split; [ exact H | ]. split; [ vm_compute; reflexivity | ].
  exact (results_ordered_descending Py.VNone Py.VNone H).
Defined.

(** C6: in each of the three queries only delivered orders contribute: the
    result is the one computed from the delivered orders alone; over orders
    none of which is delivered (one pending order, say) the overall result
    has total_orders = 0 and every sum 0. *)
Theorem only_delivered_orders_count (r : report) (s e : Py.value) (w : world) :
  fst (call r s e w) = fst (call r s e (with_orders_where delivered w))
  /\ (healthy w ->
      (forall o, In o (orders (db w)) -> delivered o = false) ->
      zero_overall (fst (get_final_stats s e w))).
Proof.
  split.
  - rewrite !call_outcome. unfold with_orders_where.
    cbn [connect_failure query_failure db].
    now rewrite exec_delivered.
  - intros H N. apply (overall_no_match s e H).
    intros o Ho. specialize (N o Ho).
    destruct (where_holds (st_where (final_query s e)) o) eqn:E; [ | reflexivity ].
    apply (where_delivered Overall s e o) in E. congruence.
Qed.

Lemma only_delivered_orders_count_witness :
  healthy (with_orders_where (fun o => negb (delivered o)) Sample.server)
  /\ orders (db (with_orders_where (fun o => negb (delivered o)) Sample.server))
     = [Sample.pending_order]
  /\ zero_overall
       (fst (get_final_stats (Py.VDate Sample.day1) (Py.VDate Sample.day2)
               (with_orders_where (fun o => negb (delivered o)) Sample.server))).
Proof.
  assert (H : healthy (with_orders_where (fun o => negb (delivered o)) Sample.server))
    by (split; reflexivity).
  split; [ exact H | ]. split; [ reflexivity | ].
  apply (proj2 (only_delivered_orders_count Overall (Py.VDate Sample.day1)
                  (Py.VDate Sample.day2)
                  (with_orders_where (fun o => negb (delivered o)) Sample.server)) H).
  intros o [<- | []]. reflexivity.
Defined.

Local Open Scope Q_scope.

(** C7 fails on the code: when the execution of the statement raises, the
    function is left before [conn.close()], and the connection it opened
    stays open, for each of the three functions and whatever the dates. *)
Theorem connection_left_open_on_query_error (r : report) (s e : Py.value)
    (d : database) (x : exn) (n : connection) (held : list connection) :
  call r s e (mkworld d None (Some x) n held)
  = (Raised x, mkworld d None (Some x) (S n) (n :: held))
  /\ is_open n (snd (call r s e (mkworld d None (Some x) n held))) = true.
Proof.
  assert (E : call r s e (mkworld d None (Some x) n held)
              = (Raised x, mkworld d None (Some x) (S n) (n :: held))).
  { destruct r; unfold call, get_final_stats, get_restaurant_stats,
      get_delivery_stats, bind, get_db_connection, read_sql, is_open;
      cbn [connect_failure query_failure db next_connection open_connections
           existsb];
      rewrite Nat.eqb_refl; reflexivity. }
  split; [ exact E | ].
  rewrite E. unfold is_open. cbn [snd open_connections existsb].
  now rewrite Nat.eqb_refl.
Qed.

(** On the path that returns, the connection is closed again. *)
Lemma connection_closed_on_return (r : report) (s e : Py.value) (w : world) :
  healthy w ->
  is_open (next_connection w) (snd (call r s e w)) = false.
Proof.
  intros H. rewrite (call_healthy r s e H). unfold is_open, after_call.
  cbn [snd open_connections].
  induction (open_connections w) as [|c cs IH]; [ reflexivity | ].
  cbn [filter]. destruct (Nat.eqb (next_connection w) c) eqn:E; cbn [negb].
  - exact IH.
  - cbn [existsb]. now rewrite E, IH.
Qed.

Example failing_server_leaks :
  call Overall Py.VNone Py.VNone Sample.failing_server
  = (Raised DatabaseError,
     mkworld Sample.tables None (Some DatabaseError) 1%nat [0%nat]).
Proof. reflexivity. Qed.

Local Open Scope string_scope.





(** C10: with no start date (absent or empty) each of the three queries
    applies no date filter whatever the end date is; the statement and the
    result are those of the all-time aggregation. *)
Theorem end_date_alone_is_ignored (r : report) (e : Py.value) (w : world) :
  (query_of r Py.VNone e = query_of r Py.VNone Py.VNone
   /\ query_of r Py.VEmpty e = query_of r Py.VNone Py.VNone)
  /\ st_where (query_of r Py.VNone Py.VNone) = [StatusIs "delivered"]
  /\ call r Py.VNone e w = call r Py.VNone Py.VNone w
  /\ call r Py.VEmpty e w = call r Py.VNone Py.VNone w.
Proof. destruct r; repeat split; reflexivity. Qed.

End Claims.

(** * Further properties of the code *)

Module Extras.
Import Db Sql Pandas Engine App Spec Derived Script.
Import EngineFacts FrameFacts DateFacts CallFacts RoundFacts ResultFacts.
Import CallMore GroupFacts PageFacts ScriptFacts.
Local Open Scope string_scope.

(** X1: a call that returns leaves the connections of the process as they
    were: the one it opened is closed again, none other is touched, and the
    tables are not changed. *)
Theorem returning_call_restores_connections (r : report) (s e : Py.value)
    (w : world) :
  healthy w ->
  ~ In (next_connection w) (open_connections w) ->
  open_connections (snd (call r s e w)) = open_connections w
  /\ db (snd (call r s e w)) = db w
  /\ exists df, fst (call r s e w) = Returned df.
Proof.
  intros H N. rewrite (call_healthy r s e H). cbn [fst snd]. unfold after_call.
  cbn [open_connections db]. split; [ now apply filter_other_handles | ].
  split; [ reflexivity | now eexists ].
Qed.

Lemma returning_call_restores_connections_witness :
  healthy Sample.server
  /\ open_connections
       (snd (call PerRestaurant Py.VNone Py.VNone Sample.server)) = []
  /\ db (snd (call PerRestaurant Py.VNone Py.VNone Sample.server))
     = db Sample.server
  /\ exists df,
       fst (call PerRestaurant Py.VNone Py.VNone Sample.server) = Returned df.
Proof.
  assert (H : healthy Sample.server) by (split; reflexivity).
  split; [ exact H | ].
  apply (@returning_call_restores_connections PerRestaurant Py.VNone Py.VNone
           Sample.server H).
  intros [].
Defined.

(** X2: when the connection cannot be opened, each of the three functions
    raises that error at once: no statement is sent and nothing is left
    open. *)
Theorem connect_failure_propagates (r : report) (s e : Py.value)
    (d : database) (x : exn) (q : option exn) (n : connection)
    (held : list connection) :
  call r s e (mkworld d (Some x) q n held)
  = (Raised x, mkworld d (Some x) q n held).
Proof. now apply call_connect_failure. Qed.

(** X3: the single-day mode is the range from a day to itself: with a
    well-formed date [d], a call with start [d] and no end date returns what
    the call with start [d] and end [d] returns. *)
Theorem single_day_is_degenerate_range (r : report) (d : Py.date) (e : Py.value)
    (w : world) :
  Py.valid d = true -> Py.truthy e = false ->
  fst (call r (Py.VDate d) e w) = fst (call r (Py.VDate d) (Py.VDate d) w).
Proof.
  intros V F. rewrite !call_outcome. 
  destruct (connect_failure w); [ reflexivity | ].
  destruct (query_failure w); [ reflexivity | ].
  do 2 f_equal.
  replace (query_of r (Py.VDate d) e)
    with (mkstatement r (st_where (query_of r (Py.VDate d) e)))
    by (destruct r; reflexivity).
  replace (query_of r (Py.VDate d) (Py.VDate d))
    with (mkstatement r (st_where (query_of r (Py.VDate d) (Py.VDate d))))
    by (destruct r; reflexivity).
  apply exec_ext. intros o _.
  rewrite (where_query r (Py.VDate d) e o V)
    by (destruct e; [ reflexivity | reflexivity | discriminate ]).
  rewrite (where_query r (Py.VDate d) (Py.VDate d) o V V).
  f_equal. destruct e; [ | | discriminate ]; cbn [in_range];
    now rewrite date_leb_both.
Qed.

Lemma single_day_is_degenerate_range_witness :
  fst (call Overall (Py.VDate Sample.day1) Py.VNone Sample.server)
  = fst (call Overall (Py.VDate Sample.day1) (Py.VDate Sample.day1) Sample.server).
Proof.
  exact (@single_day_is_degenerate_range Overall Sample.day1 Py.VNone
           Sample.server eq_refl eq_refl).
Defined.

Local Open Scope Q_scope.

(** X4: a wider date range never counts fewer orders: if the range
    [a', b'] contains [a, b], the overall total_orders for [a', b'] is at
    least the one for [a, b], and the count with no dates is at least
    both. *)
Theorem wider_range_counts_more (a b a' b' : Py.date) (w : world) :
  healthy w ->
  Py.valid a = true -> Py.valid b = true ->
  Py.valid a' = true -> Py.valid b' = true ->
  Py.date_leb a' a = true -> Py.date_leb b b' = true ->
  exists n n' m : Z,
    overall_count (fst (get_final_stats (Py.VDate a) (Py.VDate b) w)) = Some n
    /\ overall_count (fst (get_final_stats (Py.VDate a') (Py.VDate b') w))
       = Some n'
    /\ overall_count (fst (get_final_stats Py.VNone Py.VNone w)) = Some m
    /\ (0 <= n <= n')%Z /\ (n' <= m)%Z.
Proof.
  intros H Va Vb Va' Vb' La Lb.
  change get_final_stats with (call Overall).
  rewrite !(result_cells Overall _ _ H).
  do 3 eexists. split; [ reflexivity | ]. split; [ reflexivity | ].
  split; [ reflexivity | ].
  unfold COUNT. split; [ split; [ lia | ] | ]; apply inj_le, filter_length_le;
    intros o _.
  - rewrite (where_query Overall (Py.VDate a) (Py.VDate b) o Va Vb),
      (where_query Overall (Py.VDate a') (Py.VDate b') o Va' Vb').
    cbn [in_range]. rewrite !andb_true_iff. intros (D & L1 & L2).
    repeat split; [ exact D | | ].
    + exact (date_leb_trans _ _ _ La L1).
    + exact (date_leb_trans _ _ _ L2 Lb).
  - rewrite (where_query Overall (Py.VDate a') (Py.VDate b') o Va' Vb'),
      (where_query Overall Py.VNone Py.VNone o eq_refl eq_refl).
    cbn [in_range]. rewrite !andb_true_iff. intros (D & _). now split.
Qed.

Lemma wider_range_counts_more_witness :
  healthy Sample.busy_server
  /\ overall_count (fst (get_final_stats (Py.VDate Sample.day1)
                           (Py.VDate Sample.day1) Sample.busy_server)) = Some 3%Z
  /\ overall_count (fst (get_final_stats (Py.VDate Sample.day1)
                           (Py.VDate Sample.day2) Sample.busy_server)) = Some 4%Z
  /\ exists n n' m : Z,
       overall_count (fst (get_final_stats (Py.VDate Sample.day1)
                             (Py.VDate Sample.day1) Sample.busy_server)) = Some n
       /\ overall_count (fst (get_final_stats (Py.VDate Sample.day1)
                                (Py.VDate Sample.day2) Sample.busy_server))
          = Some n'
       /\ overall_count (fst (get_final_stats Py.VNone Py.VNone
                                Sample.busy_server)) = Some m
       /\ (0 <= n <= n')%Z /\ (n' <= m)%Z.
Proof.
  assert (H : healthy Sample.busy_server) by (split; reflexivity).
  split; [ exact H | ].
  split; [ vm_compute; reflexivity | ]. split; [ vm_compute; reflexivity | ].
  exact (@wider_range_counts_more Sample.day1 Sample.day1 Sample.day1 Sample.day2
           Sample.busy_server H eq_refl eq_refl eq_refl eq_refl eq_refl eq_refl).
Defined.

(** X5: every row of the per-restaurant and of the per-courier result
    counts at least one order: a restaurant or courier without a selected
    order has no row. *)
Theorem grouped_rows_count_an_order (r : report) (s e : Py.value) (w : world) :
  healthy w -> r <> Overall ->
  exists df cells,
    fst (call r s e w) = Returned df
    /\ column (count_column r) df = Some cells
    /\ List.length cells = List.length (rows df)
    /\ Forall (fun c => exists z : Z, c = CInt z /\ (1 <= z)%Z) cells.
Proof.
  intros H R. rewrite (result_cells r s e H).
  destruct r; [ congruence | | ]; do 2 eexists;
    (split; [ reflexivity | ]); rewrite column_of_rows;
    cbn [count_column]; eval_position; cbn [nth];
    (split; [ reflexivity | ]); cbn [rows];
    (split; [ now rewrite !length_map | ]);
    apply Forall_map, ORDER_BY_DESC_Forall;
    (eapply Forall_impl; [ | apply groups_nonempty ]);
    intros g Hg; exists (COUNT (snd g)); (split; [ reflexivity | ]);
    apply COUNT_nonempty; exact Hg.
Qed.

Lemma grouped_rows_count_an_order_witness :
  healthy Sample.busy_server
  /\ exists df cells,
       fst (call PerCourier Py.VNone Py.VNone Sample.busy_server) = Returned df
       /\ column (count_column PerCourier) df = Some cells
       /\ List.length cells = List.length (rows df)
       /\ Forall (fun c => exists z : Z, c = CInt z /\ (1 <= z)%Z) cells.
Proof.
  assert (H : healthy Sample.busy_server) by (split; reflexivity).
  split; [ exact H | ].
  apply (@grouped_rows_count_an_order PerCourier Py.VNone Py.VNone
           Sample.busy_server H).
  discriminate.
Defined.

(** X6: the counts of the rows of a grouped result add up to at most the
    overall total_orders when the ids of the joined table are unique, and
    to exactly it when moreover every selected order points to a row of
    that table; orders without a restaurant (courier) are counted overall
    but in no row. *)
Theorem grouped_counts_add_up (r : report) (s e : Py.value) (w : world) :
  healthy w -> well_formed s = true -> well_formed e = true ->
  joined_ids_unique r (db w) ->
  exists (n : Z) (df : DataFrame) (cells : list cell),
    overall_count (fst (get_final_stats s e w)) = Some n
    /\ fst (call r s e w) = Returned df
    /\ column (count_column r) df = Some cells
    /\ (sum_counts cells <= n)%Z
    /\ ((forall o, In o (orders (db w)) -> selected s e o = true ->
                   joins r (db w) o) ->
        sum_counts cells = n).
Proof.
  intros H Ws We U.
  change get_final_stats with (call Overall).
  rewrite (result_cells Overall s e H), (result_cells r s e H).
  destruct r; cbn [count_column]; do 3 eexists;
    (split; [ reflexivity | ]); (split; [ reflexivity | ]).
  - split; [ reflexivity | ]. cbn [sum_counts fold_right map nth rows]. split; [ lia | ].
    intros _. lia.
  - rewrite column_of_rows. eval_position. split; [ reflexivity | ].
    rewrite (@sum_counts_of_groups order) by reflexivity.
    rewrite ORDER_BY_DESC_sizes, groups_sizes.
    cbn [query_of restaurant_query final_query st_where]. unfold COUNT.
    split.
    + apply inj_le, JOIN_length_le. exact U.
    + intros J. f_equal. apply JOIN_length_eq; [ exact U | ].
      intros o Ho. apply filter_In in Ho. destruct Ho as [Ho W].
      apply (J o Ho).
      now rewrite <- (where_selected PerRestaurant s e o Ws We).
  - rewrite column_of_rows. eval_position. split; [ reflexivity | ].
    rewrite (@sum_counts_of_groups order) by reflexivity.
    rewrite ORDER_BY_DESC_sizes, groups_sizes.
    cbn [query_of delivery_query final_query st_where]. unfold COUNT.
    split.
    + apply inj_le, JOIN_length_le. exact U.
    + intros J. f_equal. apply JOIN_length_eq; [ exact U | ].
      intros o Ho. apply filter_In in Ho. destruct Ho as [Ho W].
      apply (J o Ho).
      now rewrite <- (where_selected PerCourier s e o Ws We).
Qed.

Lemma grouped_counts_add_up_witness :
  healthy Sample.busy_server
  /\ joined_ids_unique PerRestaurant (db Sample.busy_server)
  /\ exists (n : Z) (df : DataFrame) (cells : list cell),
       overall_count (fst (get_final_stats Py.VNone Py.VNone Sample.busy_server))
       = Some n
       /\ fst (call PerRestaurant Py.VNone Py.VNone Sample.busy_server)
          = Returned df
       /\ column (count_column PerRestaurant) df = Some cells
       /\ (sum_counts cells <= n)%Z
       /\ ((forall o, In o (orders (db Sample.busy_server)) ->
                      selected Py.VNone Py.VNone o = true ->
                      joins PerRestaurant (db Sample.busy_server) o) ->
           sum_counts cells = n).
Proof.
  assert (H : healthy Sample.busy_server) by (split; reflexivity).
  assert (U : joined_ids_unique PerRestaurant (db Sample.busy_server)).
  { cbn. repeat constructor; cbn; intuition discriminate. }
  split; [ exact H | ]. split; [ exact U | ].
  exact (@grouped_counts_add_up PerRestaurant Py.VNone Py.VNone
           Sample.busy_server H eq_refl eq_refl U).
Defined.

(** X7: the overall result has exactly one row; its total_orders is the
    exact number of selected orders, and its four sums are numbers, never
    missing, whether or not an order is selected. *)
Theorem overall_row_is_complete (s e : Py.value) (w : world) :
  healthy w -> well_formed s = true -> well_formed e = true ->
  exists (df : DataFrame) (a r d c : Q),
    fst (get_final_stats s e w) = Returned df
    /\ columns df = overall_columns
    /\ List.length (rows df) = 1%nat
    /\ overall_count (Returned df)
       = Some (Z.of_nat (List.length (filter (selected s e) (orders (db w)))))
    /\ float_at "total_order_amount" 0 df = Some a
    /\ float_at "total_restaurant_revenue" 0 df = Some r
    /\ float_at "total_delivery_charge" 0 df = Some d
    /\ float_at "total_additional_charge" 0 df = Some c.
Proof.
  intros H Ws We. change get_final_stats with (call Overall).
  rewrite (result_cells Overall s e H).
  rewrite (filter_where_selected Overall s e (orders (db w)) Ws We).
  do 5 eexists. split; [ reflexivity | ].
  split; [ reflexivity | ].
  split; [ reflexivity | ]. split; [ reflexivity | ].
  repeat split; reflexivity.
Qed.

Lemma overall_row_is_complete_witness :
  healthy Sample.busy_server
  /\ exists (df : DataFrame) (a r d c : Q),
       fst (get_final_stats (Py.VDate Sample.day2) Py.VNone Sample.busy_server)
       = Returned df
       /\ columns df = overall_columns
       /\ List.length (rows df) = 1%nat
       /\ overall_count (Returned df)
          = Some (Z.of_nat (List.length
                              (filter (selected (Py.VDate Sample.day2) Py.VNone)
                                 (orders (db Sample.busy_server)))))
       /\ float_at "total_order_amount" 0 df = Some a
       /\ float_at "total_restaurant_revenue" 0 df = Some r
       /\ float_at "total_delivery_charge" 0 df = Some d
       /\ float_at "total_additional_charge" 0 df = Some c.
Proof.
  assert (H : healthy Sample.busy_server) by (split; reflexivity).
  split; [ exact H | ].
  exact (@overall_row_is_complete (Py.VDate Sample.day2) Py.VNone
           Sample.busy_server H eq_refl eq_refl).
Defined.

(** X8: the net revenue is not clamped: rounding never moves the overall
    net revenue across a whole-cent amount [t], so a net total of at most
    [t] (a loss of a cent or more, say) is reported as at most [t], and one
    of at least [t] as at least [t]. *)
Theorem net_revenue_keeps_its_side (s e : Py.value) (w : world) (t : Q) :
  healthy w -> well_formed s = true -> well_formed e = true ->
  whole_cents t ->
  exists (df : DataFrame) (rev : Q),
    fst (get_final_stats s e w) = Returned df
    /\ float_at "total_restaurant_revenue" 0 df = Some rev
    /\ (total net_revenue (filter (selected s e) (orders (db w))) <= t ->
        rev <= t)
    /\ (t <= total net_revenue (filter (selected s e) (orders (db w))) ->
        t <= rev).
Proof.
  intros H Ws We Ht. change get_final_stats with (call Overall).
  rewrite (result_cells Overall s e H).
  rewrite (filter_where_selected Overall s e (orders (db w)) Ws We).
  do 2 eexists. split; [ reflexivity | ]. split; [ reflexivity | ].
  split; intros L; rewrite <- (round2_whole_cents Ht);
    now apply round2_monotone.
Qed.

Lemma net_revenue_keeps_its_side_witness :
  healthy loss_server
  /\ whole_cents (-(1 # 100))
  /\ total net_revenue (filter (selected Py.VNone Py.VNone)
                           (orders (db loss_server))) <= -(1 # 100)
  /\ exists (df : DataFrame) (rev : Q),
       fst (get_final_stats Py.VNone Py.VNone loss_server) = Returned df
       /\ float_at "total_restaurant_revenue" 0 df = Some rev
       /\ (total net_revenue (filter (selected Py.VNone Py.VNone)
                                 (orders (db loss_server))) <= -(1 # 100) ->
           rev <= -(1 # 100))
       /\ (-(1 # 100) <= total net_revenue (filter (selected Py.VNone Py.VNone)
                                              (orders (db loss_server))) ->
           -(1 # 100) <= rev).
Proof.
  assert (H : healthy loss_server) by (split; reflexivity).
  assert (C : whole_cents (-(1 # 100))) by (exists (-1)%Z; reflexivity).
  split; [ exact H | ]. split; [ exact C | ].
  split; [ vm_compute; discriminate | ].
  exact (@net_revenue_keeps_its_side Py.VNone Py.VNone loss_server (-(1 # 100))
           H eq_refl eq_refl C).
Defined.

(** X9: the per-restaurant result has a row named [name] exactly when some
    selected order points to a store of that name, and the per-courier
    result likewise for the couriers. *)
Theorem grouped_rows_name_the_joined (s e : Py.value) (w : world) :
  healthy w -> well_formed s = true -> well_formed e = true ->
  (exists df cells,
     fst (get_restaurant_stats s e w) = Returned df
     /\ column "restaurant_name" df = Some cells
     /\ forall name,
          In (CStr name) cells
          <-> exists o st,
                In o (orders (db w)) /\ In st (stores (db w))
                /\ selected s e o = true
                /\ store_id o = Some (s_id st) /\ s_name st = name)
  /\ (exists df cells,
        fst (get_delivery_stats s e w) = Returned df
        /\ column "delivery_man_name" df = Some cells
        /\ forall name,
             In (CStr name) cells
             <-> exists o dm,
                   In o (orders (db w)) /\ In dm (delivery_men (db w))
                   /\ selected s e o = true
                   /\ delivery_man_id o = Some (dm_id dm) /\ l_name dm = name).
Proof.
  intros H Ws We. split.
  - change get_restaurant_stats with (call PerRestaurant).
    rewrite (result_cells PerRestaurant s e H).
    do 2 eexists. split; [ reflexivity | ].
    rewrite column_of_rows. eval_position. cbn [nth].
    split; [ reflexivity | ]. intros name. rewrite in_map_iff. split.
    + intros (g & [= <-] & Hg). apply ORDER_BY_DESC_In in Hg.
      assert (K : In (fst g)
                    (map fst (groups store_id s_id s_name
                                (st_where (query_of PerRestaurant s e))
                                (orders (db w)) (stores (db w)))))
        by (now apply in_map).
      apply groups_keys in K. destruct K as (o & st & Ho & Hst & W & F & E).
      exists o, st. rewrite (where_selected PerRestaurant s e o Ws We) in W.
      repeat split; try assumption. now rewrite E.
    + intros (o & st & Ho & Hst & S & F & <-).
      assert (K : In (s_id st, s_name st)
                    (map fst (groups store_id s_id s_name
                                (st_where (query_of PerRestaurant s e))
                                (orders (db w)) (stores (db w))))).
      { apply groups_keys. exists o, st.
        rewrite (where_selected PerRestaurant s e o Ws We).
        now repeat split. }
      apply in_map_iff in K. destruct K as (g & E & Hg).
      exists g. split; [ exact (f_equal (fun k : key => CStr (snd k)) E) | ].
      now apply ORDER_BY_DESC_In.
  - change get_delivery_stats with (call PerCourier).
    rewrite (result_cells PerCourier s e H).
    do 2 eexists. split; [ reflexivity | ].
    rewrite column_of_rows. eval_position. cbn [nth].
    split; [ reflexivity | ]. intros name. rewrite in_map_iff. split.
    + intros (g & [= <-] & Hg). apply ORDER_BY_DESC_In in Hg.
      assert (K : In (fst g)
                    (map fst (groups delivery_man_id dm_id l_name
                                (st_where (query_of PerCourier s e))
                                (orders (db w)) (delivery_men (db w)))))
        by (now apply in_map).
      apply groups_keys in K. destruct K as (o & dm & Ho & Hdm & W & F & E).
      exists o, dm. rewrite (where_selected PerCourier s e o Ws We) in W.
      repeat split; try assumption. now rewrite E.
    + intros (o & dm & Ho & Hdm & S & F & <-).
      assert (K : In (dm_id dm, l_name dm)
                    (map fst (groups delivery_man_id dm_id l_name
                                (st_where (query_of PerCourier s e))
                                (orders (db w)) (delivery_men (db w))))).
      { apply groups_keys. exists o, dm.
        rewrite (where_selected PerCourier s e o Ws We).
        now repeat split. }
      apply in_map_iff in K. destruct K as (g & E & Hg).
      exists g. split; [ exact (f_equal (fun k : key => CStr (snd k)) E) | ].
      now apply ORDER_BY_DESC_In.
Qed.

Lemma grouped_rows_name_the_joined_witness :
  healthy Sample.busy_server
  /\ (exists df cells,
        fst (get_restaurant_stats Py.VNone Py.VNone Sample.busy_server)
        = Returned df
        /\ column "restaurant_name" df = Some cells
        /\ forall name,
             In (CStr name) cells
             <-> exists o st,
                   In o (orders (db Sample.busy_server))
                   /\ In st (stores (db Sample.busy_server))
                   /\ selected Py.VNone Py.VNone o = true
                   /\ store_id o = Some (s_id st) /\ s_name st = name).
Proof.
  assert (H : healthy Sample.busy_server) by (split; reflexivity).
  split; [ exact H | ].
  exact (proj1 (@grouped_rows_name_the_joined Py.VNone Py.VNone
                  Sample.busy_server H eq_refl eq_refl)).
Defined.

Local Open Scope string_scope.

(** X10: on a server that answers, a run of the page always returns a page
    (the [iloc[0]] reads cannot fail), runs one query or three, and leaves
    the connections and the tables as it found them. *)
Theorem page_run_returns (to_excel : DataFrame -> list Byte.byte) (u : ui)
    (w : world) :
  healthy w ->
  Forall (fun c => c < next_connection w)%nat (open_connections w) ->
  exists page,
    fst (main to_excel u w) = Returned page
    /\ open_connections (snd (main to_excel u w)) = open_connections w
    /\ db (snd (main to_excel u w)) = db w
    /\ (next_connection (snd (main to_excel u w)) = (next_connection w + 1)%nat
        \/ next_connection (snd (main to_excel u w))
           = (next_connection w + 3)%nat).
Proof.
  intros H F.
  destruct (after_call_connections w F) as [E1 F1].
  destruct (after_call_connections (after_call w) F1) as [E2 F2].
  destruct (after_call_connections (after_call (after_call w)) F2) as [E3 _].
  destruct (filter (where_holds (st_where (final_query (fst (selection u))
                                             (snd (selection u)))))
              (orders (db w))) as [|o os] eqn:N.
  - rewrite (main_no_orders to_excel u H N). cbn [fst snd]. eexists.
    split; [ reflexivity | ]. split; [ exact E1 | ].
    split; [ reflexivity | ]. left. cbn [after_call next_connection]. lia.
  - assert (N' : filter (where_holds (st_where (final_query (fst (selection u))
                                                  (snd (selection u)))))
                   (orders (db w)) <> []) by (rewrite N; discriminate).
    destruct (main_with_orders to_excel u H N') as (page & E & _).
    rewrite E. cbn [fst snd]. exists page.
    split; [ reflexivity | ]. split; [ now rewrite E3, E2, E1 | ].
    split; [ reflexivity | ]. right. cbn [after_call next_connection]. lia.
Qed.

Lemma page_run_returns_witness :
  healthy Sample.server
  /\ exists page,
       fst (main Sample.no_bytes Sample.export_run Sample.server) = Returned page
       /\ open_connections
            (snd (main Sample.no_bytes Sample.export_run Sample.server))
          = open_connections Sample.server
       /\ db (snd (main Sample.no_bytes Sample.export_run Sample.server))
          = db Sample.server
       /\ (next_connection
             (snd (main Sample.no_bytes Sample.export_run Sample.server))
           = (next_connection Sample.server + 1)%nat
           \/ next_connection
                (snd (main Sample.no_bytes Sample.export_run Sample.server))
              = (next_connection Sample.server + 3)%nat).
Proof.
  assert (H : healthy Sample.server) by (split; reflexivity).
  split; [ exact H | ].
  apply (@page_run_returns Sample.no_bytes Sample.export_run Sample.server H).
  constructor.
Defined.

(** X11: when no order is selected, the page is the top part, the header
    and the warning [No orders found ...] naming the day or the range, and
    nothing else: no table, no download, and the per-restaurant and
    per-courier queries are not run. *)
Theorem page_without_orders (to_excel : DataFrame -> list Byte.byte) (u : ui)
    (w : world) :
  healthy w ->
  well_formed (fst (selection u)) = true ->
  well_formed (snd (selection u)) = true ->
  (forall o, In o (orders (db w)) ->
     selected (fst (selection u)) (snd (selection u)) o = false) ->
  main to_excel u w
  = (Returned
       (page_top u
        ++ [Header "Overall Statistics";
            Warning
              ("No orders found "
               ++ (if clicked u "Get Today's Stats"
                   then "for " ++ Py.isoformat (today u)
                   else "from " ++ Py.isoformat (start_input u) ++ " to "
                          ++ Py.isoformat (end_input u)))])%list,
     after_call w).
Proof.
  intros H Ws We N.
  rewrite (main_no_orders to_excel u H).
  - unfold selection, get_date_range_text.
    destruct (clicked u "Get Today's Stats"); reflexivity.
  - apply filter_none. intros o Ho.
    change (final_query ?s ?e) with (query_of Overall s e).
    rewrite (where_selected Overall _ _ o Ws We). now apply N.
Qed.

Lemma page_without_orders_witness :
  healthy Sample.server
  /\ main Sample.no_bytes quiet_run Sample.server
     = (Returned
          (page_top quiet_run
           ++ [Header "Overall Statistics";
               Warning
                 ("No orders found "
                  ++ (if clicked quiet_run "Get Today's Stats"
                      then "for " ++ Py.isoformat (today quiet_run)
                      else "from " ++ Py.isoformat (start_input quiet_run)
                             ++ " to " ++ Py.isoformat (end_input quiet_run)))])%list,
        after_call Sample.server).
Proof.
  assert (H : healthy Sample.server) by (split; reflexivity).
  split; [ exact H | ].
  apply (@page_without_orders Sample.no_bytes quiet_run Sample.server H
           eq_refl eq_refl).
  intros o Ho. cbn in Ho.
  repeat destruct Ho as [<- | Ho]; try destruct Ho; reflexivity.
Defined.

(** X12: a run of the page catches nothing, and what it has drawn stays:
    if the connection cannot be opened, the run stops at the first call
    with that error, the screen showing the title, the caption, the
    sidebar with its button and date pickers and the header of the overall
    panel, and nothing else is touched; if the first statement fails, the
    run stops there with that error and the same screen, sends no further
    statement and leaves the one connection it opened open. *)
Theorem page_run_propagates_failures (to_excel : DataFrame -> list Byte.byte)
    (u : ui) (d : database) (x : exn) (q : option exn) (n : connection)
    (held : list connection) :
  main_script to_excel u [] (mkworld d (Some x) q n held)
  = (Raised x, (page_top u ++ [Header "Overall Statistics"])%list,
     mkworld d (Some x) q n held)
  /\ main_script to_excel u [] (mkworld d None (Some x) n held)
     = (Raised x, (page_top u ++ [Header "Overall Statistics"])%list,
        mkworld d None (Some x) (S n) (n :: held)).
Proof.
  split; apply script_raises_at_first_call;
    change get_final_stats with (call Overall).
  - now apply call_connect_failure.
  - now apply call_query_failure.
Qed.

(** The screen of a run against a server that fails on the statement. *)
Example failing_run_screen :
  main_script Sample.no_bytes quiet_run [] Sample.failing_server
  = (Raised DatabaseError,
     [Title "Order Analytics Dashboard";
      Caption "Note: All statistics are based on delivered orders only";
      SidebarHeader "Date Range Selection";
      Button "Get Today's Stats";
      DateInput "Start Date"; DateInput "End Date";
      Header "Overall Statistics"],
     mkworld Sample.tables None (Some DatabaseError) 1%nat [0%nat]).
Proof. reflexivity. Qed.

(** X13: what a download button hands over is the encoding of a frame of
    the same run: the overall result for the overall button, and for the
    two others the very table shown above the button. *)
Theorem download_is_the_frame_shown (to_excel : DataFrame -> list Byte.byte)
    (u : ui) (w : world) (page : list element)
    (label : string) (data : list Byte.byte) (file_name mime : string) :
  fst (main to_excel u w) = Returned page ->
  In (DownloadButton label data file_name mime) page ->
  exists df,
    data = to_excel df
    /\ ((label = "Download Overall Stats Excel"
         /\ fst (get_final_stats (fst (selection u)) (snd (selection u)) w)
            = Returned df)
        \/ (label <> "Download Overall Stats Excel" /\ In (Table df) page)).
Proof.
  intros E Hin. unfold main in E. cbv zeta in E.
  apply bind_returned in E as (final_stats & w1 & E0 & E).
  apply bind_returned in E as (total_orders & w2 & _ & E).
  destruct (is_zero total_orders).
  - unfold ret in E. cbn [fst] in E. injection E as <-. find_button Hin.
  - apply bind_returned in E as (c1 & w3 & _ & E).
    apply bind_returned in E as (c2 & w4 & _ & E).
    apply bind_returned in E as (c3 & w5 & _ & E).
    apply bind_returned in E as (c4 & w6 & _ & E).
    apply bind_returned in E as (restaurant_stats & w7 & _ & E).
    apply bind_returned in E as (delivery_stats & w8 & _ & E).
    unfold ret in E. cbn [fst] in E. injection E as <-.
    find_button Hin; injection Hin as <- <- <- <-.
    + exists final_stats. split; [ reflexivity | ]. left.
      split; [ reflexivity | ]. now rewrite E0.
    + exists restaurant_stats. split; [ reflexivity | ]. right.
      split; [ discriminate | in_page ].
    + exists delivery_stats. split; [ reflexivity | ]. right.
      split; [ discriminate | in_page ].
Qed.

Lemma download_is_the_frame_shown_witness :
  fst (main Sample.no_bytes Sample.export_run Sample.server)
  = Returned Sample.export_page
  /\ exists df,
       @nil Byte.byte = Sample.no_bytes df
       /\ (("Download Overall Stats Excel" = "Download Overall Stats Excel"
            /\ fst (get_final_stats (fst (selection Sample.export_run))
                      (snd (selection Sample.export_run)) Sample.server)
               = Returned df)
           \/ ("Download Overall Stats Excel" <> "Download Overall Stats Excel"
               /\ In (Table df) Sample.export_page)).
Proof.
  assert (E : fst (main Sample.no_bytes Sample.export_run Sample.server)
              = Returned Sample.export_page) by (vm_compute; reflexivity).
  assert (I : In (DownloadButton "Download Overall Stats Excel" []
                    "overall_stats_2024-03-07_to_2024-03-09.xlsx" xlsx_mime)
                Sample.export_page).
  { unfold Sample.export_page. cbn [In]. repeat (first [ left; reflexivity | right ]). }
  split; [ exact E | ].
  exact (@download_is_the_frame_shown Sample.no_bytes Sample.export_run
           Sample.server _ _ _ _ _ E I).
Defined.

(** X14: a run started by the shortcut button shows the statistics of the
    current day only: the two date pickers are not read, and no download is
    offered in that run. *)
Theorem today_run_ignores_pickers (to_excel : DataFrame -> list Byte.byte)
    (u : ui) (w : world) (a b : Py.date) (page : list element) :
  clicked u "Get Today's Stats" = true ->
  main to_excel u w = main to_excel (mkui (today u) (pressed u) a b) w
  /\ (fst (main to_excel u w) = Returned page ->
      forallb (fun el => negb (is_download el)) page = true).
Proof.
  intros C. split.
  - unfold main, selection, page_top, clicked in *.
    cbn [pressed today start_input end_input].
    destruct (pressed u) as [l|]; [ | discriminate ].
    rewrite C. reflexivity.
  - intros E. apply forallb_forall. intros el Hin.
    destruct el; try reflexivity. exfalso.
    unfold main in E. cbv zeta in E.
    apply bind_returned in E as (final_stats & w1 & _ & E).
    apply bind_returned in E as (total_orders & w2 & _ & E).
    destruct (is_zero total_orders).
    + unfold ret in E. cbn [fst] in E. injection E as <-. find_button Hin.
    + apply bind_returned in E as (c1 & w3 & _ & E).
      apply bind_returned in E as (c2 & w4 & _ & E).
      apply bind_returned in E as (c3 & w5 & _ & E).
      apply bind_returned in E as (c4 & w6 & _ & E).
      apply bind_returned in E as (restaurant_stats & w7 & _ & E).
      apply bind_returned in E as (delivery_stats & w8 & _ & E).
      unfold ret in E. cbn [fst] in E. injection E as <-.
      find_button Hin;
        match goal with
        | X : clicked u ?l = true |- _ =>
            assert (D : l = "Get Today's Stats")
              by (exact (clicked_one_button u _ _ X C));
            discriminate D
        end.
Qed.

Lemma today_run_ignores_pickers_witness :
  clicked today_run "Get Today's Stats" = true
  /\ main Sample.no_bytes today_run Sample.server
     = main Sample.no_bytes
         (mkui (today today_run) (pressed today_run) Sample.day1 Sample.day1)
         Sample.server
  /\ fst (main Sample.no_bytes today_run Sample.server) = Returned today_page
  /\ forallb (fun el => negb (is_download el)) today_page = true.
Proof.
  assert (E : fst (main Sample.no_bytes today_run Sample.server)
              = Returned today_page) by (vm_compute; reflexivity).
  split; [ reflexivity | ].
  split; [ exact (proj1 (@today_run_ignores_pickers Sample.no_bytes today_run
                           Sample.server Sample.day1 Sample.day1 today_page
                           eq_refl)) | ].
  split; [ exact E | ].
  exact (proj2 (@today_run_ignores_pickers Sample.no_bytes today_run
                  Sample.server Sample.day1 Sample.day1 today_page eq_refl) E).
Defined.

(** X15: the dates cannot change the shape of the statement: the text a
    function sends holds exactly two quote characters for the status and two
    more for each date it puts in, whatever the date arguments are. *)
Theorem statement_quotes_are_balanced (r : report) (s e : Py.value) :
  count_quotes (query_text r s e)
  = (2 + (if Py.truthy s && Py.truthy e then 4
          else if Py.truthy s then 2 else 0))%nat.
Proof.
  destruct r; unfold query_text, final_query_text, restaurant_query_text,
    delivery_query_text; cbv zeta;
    destruct (Py.truthy s && Py.truthy e); [ | destruct (Py.truthy s) | | destruct (Py.truthy s) | | destruct (Py.truthy s) ];
    rewrite ?count_quotes_append, ?count_quotes_str; reflexivity.
Qed.

(** X16: the statement the model of the server executes is, as text, the
    string the function concatenates: the fixed SELECT with the status
    condition, the date clause chosen by the two dates, and for the grouped
    reports GROUP BY and ORDER BY. *)
Theorem statement_text_is_the_query (r : report) (s e : Py.value) :
  sql_text (query_of r s e) = query_text r s e.
Proof.
  destruct r; cbn [query_of query_text].
  - apply TextFacts.final_query_sql_text.
  - apply TextFacts.restaurant_query_sql_text.
  - apply TextFacts.delivery_query_sql_text.
Qed.

(** X17: when some order is selected, the page shows the exact number of
    selected orders as Total Orders, and for the restaurants and for the
    couriers either the table of the result or, if that result has no rows,
    the warning that none was found: never a blank panel. *)
Theorem page_with_orders (to_excel : DataFrame -> list Byte.byte) (u : ui)
    (w : world) (o : order) :
  healthy w ->
  well_formed (fst (selection u)) = true ->
  well_formed (snd (selection u)) = true ->
  In o (orders (db w)) ->
  selected (fst (selection u)) (snd (selection u)) o = true ->
  exists page,
    fst (main to_excel u w) = Returned page
    /\ In (Metric "Total Orders"
             (CInt (Z.of_nat
                      (List.length
                         (filter (selected (fst (selection u)) (snd (selection u)))
                            (orders (db w))))))) page
    /\ (forall r df,
          (r = PerRestaurant \/ r = PerCourier) ->
          fst (call r (fst (selection u)) (snd (selection u)) w) = Returned df ->
          if empty df
          then In (Warning
                     ((if report_eqb r PerRestaurant
                       then "No restaurant orders found "
                       else "No delivery orders found ")
                      ++ get_date_range_text (fst (selection u))
                           (snd (selection u)))) page
          else In (Table df) page).
Proof.
  intros H Ws We Ho S.
  assert (N : filter (where_holds (st_where (final_query (fst (selection u))
                                               (snd (selection u)))))
                (orders (db w)) <> []).
  { intros E.
    assert (I : In o (filter (where_holds
                                (st_where (final_query (fst (selection u))
                                             (snd (selection u)))))
                        (orders (db w)))).
    { apply filter_In. split; [ exact Ho | ].
      change (final_query ?a ?b) with (query_of Overall a b).
      now rewrite (where_selected Overall _ _ o Ws We). }
    rewrite E in I. destruct I. }
  destruct (main_with_orders to_excel u H N) as (page & E & M & P).
  exists page. rewrite E. split; [ reflexivity | ]. split; [ | exact P ].
  change (final_query ?a ?b) with (query_of Overall a b) in M.
  rewrite (filter_where_selected Overall _ _ (orders (db w)) Ws We) in M.
  exact M.
Qed.

Lemma page_with_orders_witness :
  healthy Sample.server
  /\ exists page,
       fst (main Sample.no_bytes Sample.export_run Sample.server) = Returned page
       /\ In (Metric "Total Orders"
                (CInt (Z.of_nat
                         (List.length
                            (filter (selected (fst (selection Sample.export_run))
                                       (snd (selection Sample.export_run)))
                               (orders (db Sample.server))))))) page
       /\ (forall r df,
             (r = PerRestaurant \/ r = PerCourier) ->
             fst (call r (fst (selection Sample.export_run))
                    (snd (selection Sample.export_run)) Sample.server)
             = Returned df ->
             if empty df
             then In (Warning
                        ((if report_eqb r PerRestaurant
                          then "No restaurant orders found "
                          else "No delivery orders found ")
                         ++ get_date_range_text (fst (selection Sample.export_run))
                              (snd (selection Sample.export_run)))) page
             else In (Table df) page).
Proof.
  assert (H : healthy Sample.server) by (split; reflexivity).
  split; [ exact H | ].
  apply (@page_with_orders Sample.no_bytes Sample.export_run Sample.server
           (mkorder 1 (Some 7%Z) (Some 3%Z) 100 10 5 "delivered"
              (Sample.noon Sample.day1)) H eq_refl eq_refl).
  - left. reflexivity.
  - reflexivity.
Defined.

(** X18: the page handed back by a run that returns is the screen as the
    script leaves it, statement by statement; a run that raises does so in
    both views with the same error and the same world. *)
Theorem page_is_the_final_screen (to_excel : DataFrame -> list Byte.byte)
    (u : ui) (w : world) :
  main to_excel u w
  = match main_script to_excel u [] w with
    | (Returned _, scr, w') => (Returned scr, w')
    | (Raised x, _, w') => (Raised x, w')
    end.
Proof. apply main_is_the_script. Qed.

End Extras.
